(** * DeltaOptimizer build and installation script

    A shallow embedding of [build_and_install.py]: the command wrapper
    [run_command], the six operations ([clean_build_files], [build_package],
    [install_locally], [upload_to_pypi], [run_tests], [create_zip_package]),
    the composite pipeline and the interactive menu of [main].

    The script is a sequence of effects on its surroundings, so every
    function of the script is a computation over an explicit [world]:
    the working directory, the operator's pending input lines, the text
    printed so far, the clock, and the external commands spawned so far.
    A Python exception is a second kind of result, and the world reached
    when it is raised is kept (what was printed or deleted before stays so).

    The working directory is a tree of named directories and regular
    files; permissions, links and time stamps are not part of it.  An
    external command is known by its exit status, its captured output and
    the working directory it leaves behind. *)

From Stdlib Require Import String Ascii List NArith ZArith Bool Lia.
Import ListNotations.
Open Scope string_scope.
Set Warnings "-register-all".

(** ** Text

    A Python [str] is a Rocq [string].  The characters of a line typed by
    the operator stand for the code points 0..255, on which [isspace] and
    [lower] below agree with Python's [str.isspace] and [str.lower];
    message literals are carried over from the source text byte for byte. *)

Module Text.

Definition nl : string := String (ascii_of_nat 10) EmptyString.

(** A line of output: what [print(s)] writes. *)
Definition line (s : string) : string := s ++ nl.

(** The double-quote character, for command lines that contain one. *)
Definition dq : string := String (ascii_of_nat 34) EmptyString.

(** Python's [s * n]. *)
Fixpoint times (s : string) (n : nat) : string :=
  match n with
  | O => EmptyString
  | S n' => s ++ times s n'
  end.

Definition between (lo hi n : N) : bool := (lo <=? n)%N && (n <=? hi)%N.

(** [str.isspace] on one character: TAB..CR, FS..US, SPACE, NEL, NBSP. *)
Definition isspace (c : ascii) : bool :=
  let n := N_of_ascii c in
  between 9 13 n || between 28 32 n || (n =? 133)%N || (n =? 160)%N.

Fixpoint lstrip (s : string) : string :=
  match s with
  | EmptyString => EmptyString
  | String c s' => if isspace c then lstrip s' else s
  end.

Fixpoint rstrip (s : string) : string :=
  match s with
  | EmptyString => EmptyString
  | String c s' =>
      match rstrip s' with
      | EmptyString => if isspace c then EmptyString else String c EmptyString
      | r => String c r
      end
  end.

(** [str.strip()] with no argument. *)
Definition strip (s : string) : string := rstrip (lstrip s).

(** [str.lower] on one character: A..Z, and the capital letters of the
    upper half (all of 192..222 but the multiplication sign 215). *)
Definition lower_char (c : ascii) : ascii :=
  let n := N_of_ascii c in
  if between 65 90 n || (between 192 222 n && negb (n =? 215)%N)
  then ascii_of_N (n + 32)
  else c.

Fixpoint lower (s : string) : string :=
  match s with
  | EmptyString => EmptyString
  | String c s' => String (lower_char c) (lower s')
  end.

(** Decimal digits, zero-padded to [width] places: what [strftime] prints
    for [%m] and [%d] (two places) and for [%Y] (four places). *)
Definition digit (n : N) : ascii := ascii_of_N (48 + n mod 10).

Fixpoint zero_padded (width : nat) (n : N) : string :=
  match width with
  | O => EmptyString
  | S w => zero_padded w (n / 10) ++ String (digit n) EmptyString
  end.

Definition is_digit (c : ascii) : bool := between 48 57 (N_of_ascii c).

Fixpoint all_digits (s : string) : bool :=
  match s with
  | EmptyString => true
  | String c s' => is_digit c && all_digits s'
  end.

(** Reading a string of decimal digits back as a number. *)
Fixpoint decimal_from (acc : N) (s : string) : N :=
  match s with
  | EmptyString => acc
  | String c s' => decimal_from (10 * acc + (N_of_ascii c - 48)) s'
  end.

Definition decimal (s : string) : N := decimal_from 0 s.

End Text.

(** ** Values and exceptions *)

(** What an operation of the menu hands back to its caller. *)
Inductive pyval : Type :=
| PNone
| PBool (b : bool)
| PStr (s : string).

(** Python's truth test, as [and] and [if] apply it. *)
Definition truthy (v : pyval) : bool :=
  match v with
  | PNone => false
  | PBool b => b
  | PStr s => negb (s =? EmptyString)
  end.

Inductive exn : Type :=
| SystemExit (code : option Z)
| EOFError
| KeyError (key : string)
| ValueError (msg : string)
| FileNotFoundError (filename : string)
| NotADirectoryError (filename : string)
| IsADirectoryError (filename : string)
| CalledProcessError (returncode : Z) (cmd : string) (output : string) (err : string).

Inductive result (A : Type) : Type :=
| Ret (a : A)
| Raise (e : exn).
Arguments Ret {A} a.
Arguments Raise {A} e.

(** ** Paths

    Every path of the script is relative to the working directory and has
    no [.] or [..] component.  A path is kept as its components together
    with the trailing slash, which matters: ['delta_optimizer/'] names a
    directory only. *)

Record path : Type := mkPath { parts : list string; trailing_slash : bool }.

Module Path.

Definition slash : ascii := ascii_of_nat 47.

(** The pieces of [s] between slashes; [cur] is the piece being read. *)
Fixpoint pieces (cur : string) (s : string) : list string :=
  match s with
  | EmptyString => [cur]
  | String c s' =>
      if Ascii.eqb c slash then cur :: pieces EmptyString s'
      else pieces (cur ++ String c EmptyString) s'
  end.

Definition nonempty (s : string) : bool := negb (s =? EmptyString).

Definition of_string (s : string) : path :=
  let ps := pieces EmptyString s in
  mkPath (filter nonempty ps) (negb (nonempty (last ps EmptyString)) && negb (s =? EmptyString)).

Fixpoint join_parts (ps : list string) : string :=
  match ps with
  | [] => EmptyString
  | [p] => p
  | p :: ps' => p ++ "/" ++ join_parts ps'
  end.

Definition to_string (p : path) : string :=
  join_parts (parts p) ++ (if trailing_slash p then "/" else EmptyString).

Fixpoint strip_common (a b : list string) : list string * list string :=
  match a, b with
  | x :: a', y :: b' => if x =? y then strip_common a' b' else (a, b)
  | _, _ => (a, b)
  end.

End Path.

(** [os.path.join(root, name)] for a plain file name. *)
Definition os_path_join (root : path) (name : string) : path :=
  mkPath (parts root ++ [name])%list false.

(** [os.path.dirname]: everything before the last slash. *)
Definition os_path_dirname (p : path) : path :=
  mkPath (if trailing_slash p then parts p else removelast (parts p)) false.

(** [os.path.relpath(p, start)]: climb out of what is left of [start],
    then descend along what is left of [p]. *)
Definition os_path_relpath (p start : path) : string :=
  let '(rest_start, rest_p) := Path.strip_common (parts start) (parts p) in
  match (repeat ".." (List.length rest_start) ++ rest_p)%list with
  | [] => "."
  | rel => Path.join_parts rel
  end.

(** ** The file system *)

(** What a regular file holds: plain bytes, or a ZIP archive given by its
    members (archive name, content) in the order they were written. *)
Inductive data : Type :=
| Raw (bytes : string)
| Zip (members : list (string * data)).

Inductive node : Type :=
| File (content : data)
| Dir (entries : list (string * node)).

(** The entries of a directory, in the order the system lists them. *)
Definition dir : Type := list (string * node).

Fixpoint assoc {A : Type} (k : string) (l : list (string * A)) : option A :=
  match l with
  | [] => None
  | (k', x) :: l' => if k' =? k then Some x else assoc k l'
  end.

Module Fs.

(** Bind [k] to [x]: in place when [k] is there, as a new entry otherwise. *)
Fixpoint put (k : string) (x : node) (es : dir) : dir :=
  match es with
  | [] => [(k, x)]
  | (k', y) :: es' => if k' =? k then (k, x) :: es' else (k', y) :: put k x es'
  end.

Definition remove (k : string) (es : dir) : dir :=
  filter (fun e => negb (fst e =? k)) es.

Fixpoint resolve (n : node) (p : list string) : option node :=
  match p with
  | [] => Some n
  | c :: p' =>
      match n with
      | Dir es =>
          match assoc c es with
          | Some n' => resolve n' p'
          | None => None
          end
      | File _ => None
      end
  end.

(** [os.stat]: the empty path names nothing, and a path with a trailing
    slash finds directories only. *)
Definition stat (cwd : dir) (p : path) : option node :=
  match parts p with
  | [] => None
  | _ =>
      match resolve (Dir cwd) (parts p) with
      | Some (File d) => if trailing_slash p then None else Some (File d)
      | r => r
      end
  end.

(** Create or replace the regular file at [p]; its directory must exist. *)
Fixpoint write_file (p : list string) (x : data) (es : dir) : option dir :=
  match p with
  | [] => None
  | [name] => Some (put name (File x) es)
  | c :: p' =>
      match assoc c es with
      | Some (Dir sub) =>
          match write_file p' x sub with
          | Some sub' => Some (put c (Dir sub') es)
          | None => None
          end
      | _ => None
      end
  end.

(** Remove the entry at [p] with everything below it. *)
Fixpoint remove_tree (p : list string) (es : dir) : option dir :=
  match p with
  | [] => None
  | [name] => Some (remove name es)
  | c :: p' =>
      match assoc c es with
      | Some (Dir sub) =>
          match remove_tree p' sub with
          | Some sub' => Some (put c (Dir sub') es)
          | None => None
          end
      | _ => None
      end
  end.

Definition is_dir (e : string * node) : bool :=
  match snd e with
  | Dir _ => true
  | File _ => false
  end.

(** The entries a listing shows: a name is bound once, so an entry under
    a name already [seen] is not there. *)
Fixpoint visible (seen : list string) (es : dir) : dir :=
  match es with
  | [] => []
  | (k, x) :: es' =>
      if existsb (String.eqb k) seen then visible seen es'
      else (k, x) :: visible (k :: seen) es'
  end.

(** [os.listdir], with the nodes. *)
Definition listdir (es : dir) : dir := visible [] es.

Definition dirnames (es : dir) : list string := map fst (filter is_dir (listdir es)).
Definition filenames (es : dir) : list string :=
  map fst (filter (fun e => negb (is_dir e)) (listdir es)).

(** [os.walk(top)], top-down: a directory first, then each of its
    sub-directories in turn. *)
Fixpoint walk (top : path) (n : node) : list (path * list string * list string) :=
  match n with
  | File _ => []
  | Dir es =>
      (top, dirnames es, filenames es) ::
      (fix below (seen : list string) (l : dir) : list (path * list string * list string) :=
         match l with
         | [] => []
         | (name, child) :: l' =>
             if existsb (String.eqb name) seen then below seen l'
             else
               match child with
               | Dir _ => (walk (os_path_join top name) child ++ below (name :: seen) l')%list
               | File _ => below (name :: seen) l'
               end
         end) [] es
  end.

End Fs.

(** ** The world *)

(** [datetime.now()], as far as [strftime('%Y%m%d')] looks at it. *)
Record datetime : Type := mkDate { year : N; month : N; day : N }.

(** The range of Python's [datetime]: MINYEAR = 1, MAXYEAR = 9999. *)
Definition valid_date (d : datetime) : Prop :=
  (1 <= year d <= 9999)%N /\ (1 <= month d <= 12)%N /\ (1 <= day d <= 31)%N.

Definition strftime_Ymd (d : datetime) : string :=
  Text.zero_padded 4 (year d) ++ Text.zero_padded 2 (month d) ++ Text.zero_padded 2 (day d).

(** [subprocess.CompletedProcess], with [capture_output=True, text=True]. *)
Record completed : Type := mkCompleted { returncode : Z; stdout : string; stderr : string }.

(** An archive being written: the members handed to it so far. *)
Record zipfile : Type := mkZip { zip_name : string; zip_members : list (string * data) }.

Record world : Type := mkWorld {
  fs : dir;                        (* the working directory *)
  stdin : list string;             (* the lines the operator has still to type *)
  printed : list string;           (* everything written to the terminal, oldest first *)
  clock : datetime;
  spawned : list string;           (* the command lines run so far, oldest first *)
  (* How a command line behaves, given the commands that ran before it and
     the working directory: its exit status and captured output, and the
     working directory it leaves. *)
  shell : list string -> string -> dir -> completed * dir;
  open_zip : option zipfile
}.

Definition set_fs (d : dir) (w : world) : world :=
  mkWorld d (stdin w) (printed w) (clock w) (spawned w) (shell w) (open_zip w).
Definition set_stdin (l : list string) (w : world) : world :=
  mkWorld (fs w) l (printed w) (clock w) (spawned w) (shell w) (open_zip w).
Definition write (s : string) (w : world) : world :=
  mkWorld (fs w) (stdin w) (printed w ++ [s])%list (clock w) (spawned w) (shell w) (open_zip w).
Definition set_open_zip (z : option zipfile) (w : world) : world :=
  mkWorld (fs w) (stdin w) (printed w) (clock w) (spawned w) (shell w) z.
Definition after_command (cmd : string) (d : dir) (w : world) : world :=
  mkWorld d (stdin w) (printed w) (clock w) (spawned w ++ [cmd])%list (shell w) (open_zip w).

(** ** Computations *)

Definition M (A : Type) : Type := world -> world * result A.

Definition ret {A : Type} (a : A) : M A := fun w => (w, Ret a).

Definition raise {A : Type} (e : exn) : M A := fun w => (w, Raise e).

Definition bind {A B : Type} (m : M A) (k : A -> M B) : M B :=
  fun w =>
    match m w with
    | (w', Ret a) => k a w'
    | (w', Raise e) => (w', Raise e)
    end.

(** [try: body  except: handler], the handler seeing every exception and
    re-raising those it does not name. *)
Definition try_except {A : Type} (body : M A) (handler : exn -> M A) : M A :=
  fun w =>
    match body w with
    | (w', Ret a) => (w', Ret a)
    | (w', Raise e) => handler e w'
    end.

Declare Scope py_scope.
Delimit Scope py_scope with py.
Notation "x <- c1 ;; c2" := (bind c1 (fun x => c2))
  (at level 61, c1 at next level, right associativity) : py_scope.
Notation "' pat <- c1 ;; c2" := (bind c1 (fun x => match x with pat => c2 end))
  (at level 61, pat pattern, c1 at next level, right associativity) : py_scope.
Notation "c1 ;; c2" := (bind c1 (fun _ => c2))
  (at level 61, right associativity) : py_scope.
Open Scope py_scope.

(** [for x in xs: body x]. *)
Fixpoint for_ {A : Type} (xs : list A) (body : A -> M unit) : M unit :=
  match xs with
  | [] => ret tt
  | x :: xs' => body x ;; for_ xs' body
  end.

(** [a and b]: [b] is evaluated only when [a] is true, and a false [a] is
    the value of the whole. *)
Definition py_and (a b : M pyval) : M pyval :=
  v <- a ;;
  if truthy v then b else ret v.

(** ** Library calls *)

Definition print (s : string) : M unit :=
  fun w => (write (Text.line s) w, Ret tt).

(** [input(prompt)]: the prompt is written, then a line is read; the end
    of the input is [EOFError]. *)
Definition input (prompt : string) : M string :=
  fun w =>
    let w' := write prompt w in
    match stdin w' with
    | [] => (w', Raise EOFError)
    | line :: rest => (set_stdin rest w', Ret line)
    end.

(** [sys.exit()] with no argument. *)
Definition sys_exit : M pyval := raise (SystemExit None).

Definition datetime_now : M datetime := fun w => (w, Ret (clock w)).

(** [subprocess.run(command, shell=True, check=True, capture_output=True,
    text=True)]: the command runs, its output is captured, and a
    non-zero exit status is [CalledProcessError]. *)
Definition subprocess_run (command : string) : M completed :=
  fun w =>
    let '(r, d) := shell w (spawned w) command (fs w) in
    let w' := after_command command d w in
    if (returncode r =? 0)%Z then (w', Ret r)
    else (w', Raise (CalledProcessError (returncode r) command (stdout r) (stderr r))).

Definition os_path_exists (p : string) : M bool :=
  fun w =>
    match Fs.stat (fs w) (Path.of_string p) with
    | Some _ => (w, Ret true)
    | None => (w, Ret false)
    end.

Definition os_path_isdir (p : string) : M bool :=
  fun w =>
    match Fs.stat (fs w) (Path.of_string p) with
    | Some (Dir _) => (w, Ret true)
    | _ => (w, Ret false)
    end.

(** [shutil.rmtree(p)]: a directory goes with all it holds; anything else
    is an error. *)
Definition shutil_rmtree (p : string) : M unit :=
  fun w =>
    match Fs.stat (fs w) (Path.of_string p) with
    | Some (Dir _) =>
        match Fs.remove_tree (parts (Path.of_string p)) (fs w) with
        | Some d => (set_fs d w, Ret tt)
        | None => (w, Raise (FileNotFoundError p))
        end
    | Some (File _) => (w, Raise (NotADirectoryError p))
    | None => (w, Raise (FileNotFoundError p))
    end.

(** [os.walk(top)]. *)
Definition os_walk (top : string) : M (list (path * list string * list string)) :=
  fun w =>
    match Fs.stat (fs w) (Path.of_string top) with
    | Some n => (w, Ret (Fs.walk (Path.of_string top) n))
    | None => (w, Ret [])
    end.

(** [with zipfile.ZipFile(name, 'w') as zipf: body]: the file is created
    or emptied when the archive is opened (a directory of that name is
    [IsADirectoryError]), and on the way out of the block, by its end or by
    an exception, the archive is closed with the members written so far. *)
Definition with_ZipFile_w {A : Type} (name : string) (body : M A) : M A :=
  fun w =>
    let p := Path.of_string name in
    match Fs.stat (fs w) p, trailing_slash p with
    | Some (Dir _), _ | _, true => (w, Raise (IsADirectoryError name))
    | _, false =>
        match Fs.write_file (parts p) (Zip []) (fs w) with
        | None => (w, Raise (FileNotFoundError name))
        | Some d =>
            let '(w', r) := body (set_open_zip (Some (mkZip name [])) (set_fs d w)) in
            let members :=
              match open_zip w' with
              | Some z => zip_members z
              | None => []
              end in
            match Fs.write_file (parts p) (Zip members) (fs w') with
            | Some d' => (set_open_zip None (set_fs d' w'), r)
            | None => (set_open_zip None w', r)
            end
        end
    end.

(** [zipf.write(filename, arcname)]: the file is read and added under
    [arcname]; a directory is added as an empty member named [arcname/]. *)
Definition zipf_write (filename : path) (arcname : string) : M unit :=
  fun w =>
    match open_zip w with
    | None => (w, Raise (ValueError "Attempt to write to ZIP archive that was already closed"))
    | Some z =>
        match Fs.stat (fs w) filename with
        | Some (File d) =>
            (set_open_zip (Some (mkZip (zip_name z) (zip_members z ++ [(arcname, d)])%list)) w, Ret tt)
        | Some (Dir _) =>
            (set_open_zip (Some (mkZip (zip_name z)
                                   (zip_members z ++ [((arcname ++ "/")%string, Raw EmptyString)])%list)) w, Ret tt)
        | None => (w, Raise (FileNotFoundError (Path.to_string filename)))
        end
    end.

(** ** The script *)

(** Run a shell command with error handling. *)
Definition run_command (command description : string) : M bool :=
  print ("🚀 " ++ description ++ "...") ;;
  try_except
    (result <- subprocess_run command ;;
     print ("✅ " ++ description ++ " completed successfully") ;;
     ret true)
    (fun e =>
       match e with
       | CalledProcessError _ _ _ e_stderr =>
           print ("❌ " ++ description ++ " failed:") ;;
           print ("Error: " ++ e_stderr) ;;
           ret false
       | _ => raise e
       end).

Definition build_dirs : list string := ["build"; "dist"; "delta_optimizer.egg-info"].

(** The body of the [for dir_name in build_dirs] loop. *)
Definition remove_if_exists (dir_name : string) : M unit :=
  exists_ <- os_path_exists dir_name ;;
  if exists_ then
    shutil_rmtree dir_name ;;
    print ("🧹 Removed " ++ dir_name ++ "/")
  else ret tt.

(** Remove previous build files.  The body ends without a [return], so
    the value of a call is [None]. *)
Definition clean_build_files : M pyval :=
  for_ build_dirs remove_if_exists ;;
  ret PNone.

(** [for cmd in commands: if not run_command(cmd, description): return False]
    followed by [return True]. *)
Fixpoint run_each (commands : list string) (description : string) : M pyval :=
  match commands with
  | [] => ret (PBool true)
  | cmd :: rest =>
      ok <- run_command cmd description ;;
      if negb ok then ret (PBool false) else run_each rest description
  end.

(** Build the Python package. *)
Definition build_package : M pyval :=
  let commands := ["python setup.py sdist bdist_wheel"; "python -m build"] in
  run_each commands "Building package".

(** Install the package locally for testing. *)
Definition install_locally : M pyval :=
  ok <- run_command "pip install ." "Installing package locally" ;;
  ret (PBool ok).

(** Upload to PyPI (requires twine and credentials). *)
Definition upload_to_pypi : M pyval :=
  print "📤 Uploading to PyPI..." ;;
  print "Note: Make sure you have:" ;;
  print "1. twine installed: pip install twine" ;;
  print "2. PyPI credentials in ~/.pypirc" ;;
  print "3. Package version updated in setup.py" ;;
  response <- input "Continue with upload? (y/N): " ;;
  if negb (Text.lower response =? "y") then
    print "Upload cancelled" ;;
    ret (PBool false)
  else
    ok <- run_command "twine upload dist/*" "Uploading to PyPI" ;;
    ret (PBool ok).

(** Run quick validation tests. *)
Definition tests : list string :=
  [ "python -c " ++ Text.dq ++ "import delta_optimizer; print('✅ Import successful')" ++ Text.dq;
    "python -c " ++ Text.dq
      ++ "from delta_optimizer import DeltaOptimizer; print('✅ DeltaOptimizer import successful')"
      ++ Text.dq;
    "python examples/quick_start.py --dry-run" ].

Definition run_tests : M pyval := run_each tests "Running validation test".

(** Create a ZIP file for easy distribution. *)
Definition files_to_include : list string :=
  [ "delta_optimizer/"; "examples/"; "setup.py"; "requirements.txt"; "README.md"; "LICENSE";
    "build_and_install.py" ].

Definition zip_filename_at (now : datetime) : string :=
  "delta-optimizer-" ++ strftime_Ymd now ++ ".zip".

(** The body of the [for item in files_to_include] loop. *)
Definition add_item (item : string) : M unit :=
  exists_ <- os_path_exists item ;;
  if exists_ then
    isdir <- os_path_isdir item ;;
    if isdir then
      walked <- os_walk item ;;
      for_ walked (fun '(root, dirs, files) =>
        for_ files (fun file =>
          let file_path := os_path_join root file in
          let arcname := os_path_relpath file_path (os_path_dirname (Path.of_string item)) in
          zipf_write file_path arcname))
    else zipf_write (Path.of_string item) item
  else ret tt.

Definition create_zip_package : M pyval :=
  now <- datetime_now ;;
  let zip_filename := zip_filename_at now in
  print ("📦 Creating " ++ zip_filename ++ "...") ;;
  with_ZipFile_w zip_filename (for_ files_to_include add_item) ;;
  print ("✅ Created " ++ zip_filename) ;;
  ret (PStr zip_filename).

(** *** The menu *)

(** The [options] dictionary: keys in the order they were written, each
    bound to a label and an operation. *)
Definition menu : Type := list (string * (string * M pyval)).

Definition dict_contains {A : Type} (d : list (string * A)) (k : string) : bool :=
  match assoc k d with
  | Some _ => true
  | None => false
  end.

Definition dict_getitem {A : Type} (d : list (string * A)) (k : string) : M A :=
  match assoc k d with
  | Some x => ret x
  | None => raise (KeyError k)
  end.

Definition dict_keys {A : Type} (d : list (string * A)) : list string := map fst d.

(** The [lambda] bound to key 7. *)
Definition full_pipeline : M pyval :=
  py_and clean_build_files (py_and build_package (py_and install_locally run_tests)).

Definition options : menu :=
  [ ("1", ("Clean build files", clean_build_files));
    ("2", ("Build package", build_package));
    ("3", ("Install locally", install_locally));
    ("4", ("Run tests", run_tests));
    ("5", ("Create ZIP package", create_zip_package));
    ("6", ("Upload to PyPI", upload_to_pypi));
    ("7", ("Full pipeline (clean+build+install+test)", full_pipeline));
    ("8", ("Exit", sys_exit)) ].

Definition show_entry (e : string * (string * M pyval)) : string :=
  let '(key, (description, _)) := e in "  " ++ key ++ ". " ++ description.

Definition invalid_option : string := "❌ Invalid option. Please choose 1-8.".

(** One turn of the [while True] loop of [main], over the local variable
    [options]; the value is what [options] holds when the turn ends. *)
Definition loop_body (options : menu) : M menu :=
  print (Text.nl ++ "📋 Available options:") ;;
  for_ options (fun e => print (show_entry e)) ;;
  line <- input (Text.nl ++ "Select an option (1-8): ") ;;
  let choice := Text.strip line in
  if dict_contains options choice then
    '(description, function) <- dict_getitem options choice ;;
    print (Text.nl ++ Text.times "=" 30) ;;
    print ("Running: " ++ description) ;;
    print (Text.times "=" 30) ;;
    _ <- function ;;
    ret options
  else
    print invalid_option ;;
    ret options.

(** [turns] turns of the loop.  The loop itself has no end but an
    exception: the normal result below is the loop still running. *)
Fixpoint while_true (turns : nat) (options : menu) : M menu :=
  match turns with
  | O => ret options
  | S n => options' <- loop_body options ;; while_true n options'
  end.

(** Main installation and build menu. *)
Definition main (turns : nat) : M menu :=
  print (Text.times "=" 50) ;;
  print "DeltaOptimizer Build and Installation System" ;;
  print (Text.times "=" 50) ;;
  while_true turns options.

(** The [if __name__ == "__main__"] block.  [current_dir] is the directory
    that holds the script file, which need not be the working directory.
    ([sys.path.insert] changes the import path of this interpreter only,
    and nothing the script does afterwards imports.) *)
Definition script (current_dir : dir) (turns : nat) : M menu :=
  if negb (match assoc "setup.py" current_dir with
           | Some _ => true
           | None => false
           end)
  then
    print "❌ Error: setup.py not found. Please run this script from the package root directory." ;;
    raise (SystemExit (Some 1%Z))
  else main turns.

(** * Properties *)

(** ** Vocabulary of the statements *)

(** The world after [command] has run from [w], leaving the working
    directory [d], and [lines] were printed. *)
Definition after_run (command : string) (w : world) (d : dir) (lines : list string) : world :=
  mkWorld d (stdin w) (printed w ++ lines)%list (clock w) (spawned w ++ [command])%list
          (shell w) (open_zip w).

(** [w] with [lines] printed and nothing else changed. *)
Definition printing (lines : list string) (w : world) : world :=
  mkWorld (fs w) (stdin w) (printed w ++ lines)%list (clock w) (spawned w) (shell w) (open_zip w).

(** An operation that ends by handing back a boolean, having printed
    something, with no exception. *)
Definition reports_boolean (op : M pyval) (w : world) : Prop :=
  exists w' b out,
    op w = (w', Ret (PBool b)) /\ printed w' = (printed w ++ out)%list /\ out <> [].


(** [name] is free for [shutil.rmtree]: absent, or a directory. *)
Definition absent_or_directory (name : string) (d : dir) : Prop :=
  match assoc name d with
  | Some (File _) => False
  | _ => True
  end.

(** [name] is free for a new file: absent, or a regular file. *)
Definition not_a_directory (name : string) (d : dir) : Prop :=
  match assoc name d with
  | Some (Dir _) => False
  | _ => True
  end.

(** The working directory without the three build outputs. *)
Definition cleaned (d : dir) : dir :=
  Fs.remove "delta_optimizer.egg-info" (Fs.remove "dist" (Fs.remove "build" d)).

(** [os.path.exists] as a test on the working directory. *)
Definition present (d : dir) (item : string) : bool :=
  match Fs.stat d (Path.of_string item) with
  | Some _ => true
  | None => false
  end.

(** The regular files among [files_to_include]. *)
Definition named_files : list string :=
  ["setup.py"; "requirements.txt"; "README.md"; "LICENSE"; "build_and_install.py"].

Definition creating (name : string) : string := Text.line ("📦 Creating " ++ name ++ "...").
Definition created (name : string) : string := Text.line ("✅ Created " ++ name).

(** The world in which [create_zip_package] runs its loop: the first
    message printed and the empty archive on disk. *)
Definition opened (w : world) : world :=
  let name := zip_filename_at (clock w) in
  set_fs (Fs.put name (File (Zip [])) (fs w)) (write (creating name) w).

(** The world [create_zip_package] ends in when the archive got the
    members [ms]. *)
Definition zipped (w : world) (ms : list (string * data)) : world :=
  let name := zip_filename_at (clock w) in
  mkWorld (Fs.put name (File (Zip ms)) (fs w)) (stdin w)
          (printed w ++ [creating name; created name])%list
          (clock w) (spawned w) (shell w) None.

(** The worlds met while the archive [name] is written from [w0]: [w0]
    itself, with the members [ms0] and those added since. *)
Definition archiving (w0 : world) (name : string) (ms0 : list (string * data)) (w : world) : Prop :=
  exists extra, w = set_open_zip (Some (mkZip name (ms0 ++ extra)%list)) w0.

(** What [upload_to_pypi] prints before it reads the answer. *)
Definition upload_notes : list string :=
  [ Text.line "📤 Uploading to PyPI...";
    Text.line "Note: Make sure you have:";
    Text.line "1. twine installed: pip install twine";
    Text.line "2. PyPI credentials in ~/.pypirc";
    Text.line "3. Package version updated in setup.py";
    "Continue with upload? (y/N): " ].

(** The world once the question was asked and the answer read. *)
Definition asked (w : world) (rest : list string) : world :=
  mkWorld (fs w) rest (printed w ++ upload_notes)%list (clock w) (spawned w) (shell w) (open_zip w).

Definition menu_heading : string := Text.line (Text.nl ++ "📋 Available options:").
Definition choice_prompt : string := Text.nl ++ "Select an option (1-8): ".

(** What one turn of the menu loop shows before it reads the choice. *)
Definition menu_text (options : menu) : list string :=
  menu_heading :: (map (fun e => Text.line (show_entry e)) options ++ [choice_prompt])%list.

Fixpoint no_slash (s : string) : bool :=
  match s with
  | EmptyString => true
  | String c s' => negb (Ascii.eqb c Path.slash) && no_slash s'
  end.

(** Induction on a directory tree. *)
Fixpoint node_induction (P : node -> Prop)
    (HF : forall d, P (File d))
    (HD : forall es, Forall (fun e => P (snd e)) es -> P (Dir es))
    (n : node) : P n :=
  match n with
  | File d => HF d
  | Dir es =>
      HD es ((fix go (l : dir) : Forall (fun e => P (snd e)) l :=
                match l with
                | [] => Forall_nil _
                | (k, c) :: l' => Forall_cons (k, c) (node_induction P HF HD c) (go l')
                end) es)
  end.

(** ** Sample worlds *)

Module Sample.

Definition today : datetime := mkDate 2026 11 4.

Definition every_command_succeeds : list string -> string -> dir -> completed * dir :=
  fun _ _ d => (mkCompleted 0 "ok" EmptyString, d).

Definition every_command_fails : list string -> string -> dir -> completed * dir :=
  fun _ _ d => (mkCompleted 1 EmptyString "error: invalid command", d).

Definition world_of (d : dir) (lines : list string)
    (sh : list string -> string -> dir -> completed * dir) : world :=
  mkWorld d lines [] today [] sh None.

(** A checkout with the package, its manifest and an old build. *)
Definition project : dir :=
  [ ("delta_optimizer", Dir [ ("__init__.py", File (Raw "from .core import DeltaOptimizer"));
                              ("core", Dir [("optimizer.py", File (Raw "class DeltaOptimizer: pass"))]) ]);
    ("setup.py", File (Raw "from setuptools import setup"));
    ("build", Dir [("lib", Dir [])]) ].

(** A checkout whose [build] is a shell script. *)
Definition build_is_a_script : dir :=
  [ ("build", File (Raw "#!/bin/sh")); ("setup.py", File (Raw "from setuptools import setup")) ].

(** Directories in which today's archive name is taken by a directory. *)
Definition name_taken : dir := [ ("delta-optimizer-20261104.zip", Dir []) ].

Definition project_name_taken : dir :=
  [ ("delta_optimizer", Dir [ ("__init__.py", File (Raw "from .core import DeltaOptimizer")) ]);
    ("setup.py", File (Raw "from setuptools import setup"));
    ("delta-optimizer-20261104.zip", Dir []) ].

End Sample.

(** ** Vocabulary of the further properties *)

(** The three lines printed before a chosen operation runs. *)
Definition banner (description : string) : list string :=
  [ Text.line (Text.nl ++ Text.times "=" 30);
    Text.line ("Running: " ++ description);
    Text.line (Text.times "=" 30) ].

(** The world in which a chosen operation starts: the choice read, the
    menu and the banner printed. *)
Definition chosen (w : world) (rest : list string) (opts : menu) (description : string) : world :=
  mkWorld (fs w) rest (printed w ++ menu_text opts ++ banner description)%list
          (clock w) (spawned w) (shell w) (open_zip w).

Fixpoint all_space (s : string) : bool :=
  match s with
  | EmptyString => true
  | String c s' => Text.isspace c && all_space s'
  end.

(** What [run_command] prints around a command. *)
Definition started (description : string) : string := Text.line ("🚀 " ++ description ++ "...").
Definition succeeded (description : string) : list string :=
  [started description; Text.line ("✅ " ++ description ++ " completed successfully")].
Definition failed (description : string) (r : completed) : list string :=
  [started description; Text.line ("❌ " ++ description ++ " failed:");
   Text.line ("Error: " ++ stderr r)].

(** What clean prints for a directory it removed. *)
Definition removed (name : string) : string := Text.line ("🧹 Removed " ++ name ++ "/").

(** The body of the loop over what [os.walk] yields for [item], as it
    stands in [add_item]. *)
Definition add_walked (item : string) (t : path * list string * list string) : M unit :=
  let '(root, dirs, files) := t in
  for_ files (fun file =>
    let file_path := os_path_join root file in
    let arcname := os_path_relpath file_path (os_path_dirname (Path.of_string item)) in
    zipf_write file_path arcname).

(** The exceptions the menu can end with. *)
Definition foreseen (e : exn) : Prop :=
  e = SystemExit None \/
  e = EOFError \/
  (exists name, In name build_dirs /\ e = NotADirectoryError name) \/
  (exists name, e = IsADirectoryError name).

Definition setup_py_missing : string :=
  "❌ Error: setup.py not found. Please run this script from the package root directory.".

(** A checkout whose [dist] is a regular file, next to a build directory. *)
Definition dist_is_a_file : dir :=
  [ ("build", Dir [("lib", Dir [])]); ("dist", File (Raw "release notes")) ].

(** A checkout in which the package and the examples both hold a [run.py]. *)
Definition two_run_py : dir :=
  [ ("delta_optimizer", Dir [("run.py", File (Raw "import core"))]);
    ("examples", Dir [("run.py", File (Raw "import delta_optimizer"))]) ].

(** ** Association lists and directories *)

Lemma assoc_absent {A : Type} (k : string) (l : list (string * A)) :
  ~ In k (map fst l) -> assoc k l = None.
Proof.
  induction l as [|[k' x] l IH]; simpl; intros H; [reflexivity|].
  destruct (String.eqb_spec k' k) as [->|Hne]; [tauto | apply IH; tauto].
Qed.

Lemma assoc_remove_same (k : string) (es : dir) : assoc k (Fs.remove k es) = None.
Proof.
  induction es as [|[k' x] es IH]; simpl; [reflexivity|].
  destruct (k' =? k) eqn:E; simpl; [exact IH|]. now rewrite E.
Qed.

Lemma assoc_remove_other (k k' : string) (es : dir) :
  k' <> k -> assoc k' (Fs.remove k es) = assoc k' es.
Proof.
  intros Hne. induction es as [|[k0 x] es IH]; simpl; [reflexivity|].
  destruct (k0 =? k) eqn:E; simpl.
  - apply String.eqb_eq in E. subst k0.
    destruct (k =? k') eqn:E'; [apply String.eqb_eq in E'; congruence | exact IH].
  - destruct (k0 =? k'); [reflexivity | exact IH].
Qed.

Lemma remove_absent (k : string) (es : dir) : assoc k es = None -> Fs.remove k es = es.
Proof.
  induction es as [|[k' x] es IH]; simpl; [reflexivity|].
  destruct (k' =? k); simpl; [discriminate|]. intros H. now rewrite IH.
Qed.

Lemma assoc_put_same (k : string) (x : node) (es : dir) : assoc k (Fs.put k x es) = Some x.
Proof.
  induction es as [|[k' y] es IH]; simpl.
  - now rewrite String.eqb_refl.
  - destruct (k' =? k) eqn:E; simpl; [now rewrite String.eqb_refl | now rewrite E].
Qed.

Lemma assoc_put_other (k k' : string) (x : node) (es : dir) :
  k' <> k -> assoc k' (Fs.put k x es) = assoc k' es.
Proof.
  intros Hne. induction es as [|[k0 y] es IH]; simpl.
  - destruct (k =? k') eqn:E; [apply String.eqb_eq in E; congruence | reflexivity].
  - destruct (k0 =? k) eqn:E; simpl.
    + apply String.eqb_eq in E. subst k0.
      destruct (k =? k') eqn:E'; [apply String.eqb_eq in E'; congruence | reflexivity].
    + destruct (k0 =? k'); [reflexivity | exact IH].
Qed.

Lemma put_put (k : string) (x y : node) (es : dir) :
  Fs.put k x (Fs.put k y es) = Fs.put k x es.
Proof.
  induction es as [|[k' z] es IH]; simpl.
  - now rewrite String.eqb_refl.
  - destruct (k' =? k) eqn:E; simpl.
    + now rewrite String.eqb_refl.
    + now rewrite E, IH.
Qed.

Lemma filter_none {A : Type} (f : A -> bool) (l : list A) :
  (forall x, In x l -> f x = false) -> filter f l = [].
Proof.
  induction l as [|x l IH]; intros H; simpl; [reflexivity|].
  rewrite (H x (or_introl eq_refl)). apply IH. intros y Hy. apply H. now right.
Qed.

(** *** Listings *)

Lemma visible_assoc (seen : list string) (es : dir) (k : string) (x : node) :
  In (k, x) (Fs.visible seen es) -> assoc k es = Some x /\ ~ In k seen.
Proof.
  revert seen. induction es as [|[k0 x0] es IH]; intros seen Hin; simpl in *; [destruct Hin|].
  destruct (existsb (String.eqb k0) seen) eqn:Hseen.
  - destruct (IH _ Hin) as [Ha Hk]. split; [|exact Hk].
    destruct (String.eqb_spec k0 k) as [->|Hne]; [|exact Ha].
    exfalso. apply Hk. apply existsb_exists in Hseen as [y [Hy E]].
    apply String.eqb_eq in E. now subst.
  - destruct Hin as [Heq|Hin].
    + inversion Heq; subst. rewrite String.eqb_refl. split; [reflexivity|].
      intros Hk. assert (existsb (String.eqb k) seen = true); [|congruence].
      apply existsb_exists. exists k. split; [exact Hk | apply String.eqb_refl].
    + destruct (IH _ Hin) as [Ha Hk]. split; [|intros H; apply Hk; now right].
      destruct (String.eqb_spec k0 k) as [->|Hne]; [|exact Ha].
      exfalso. apply Hk. now left.
Qed.

Lemma visible_in (seen : list string) (es : dir) (e : string * node) :
  In e (Fs.visible seen es) -> In e es.
Proof.
  revert seen. induction es as [|[k0 x0] es IH]; intros seen Hin; simpl in *; [exact Hin|].
  destruct (existsb (String.eqb k0) seen).
  - right. exact (IH _ Hin).
  - destruct Hin as [<-|Hin]; [now left | right; exact (IH _ Hin)].
Qed.

Lemma listdir_assoc (es : dir) (k : string) (x : node) :
  In (k, x) (Fs.listdir es) -> assoc k es = Some x.
Proof. intros H. exact (proj1 (visible_assoc [] es k x H)). Qed.

(** *** Resolution and walking *)

Lemma resolve_app (n : node) (p q : list string) :
  Fs.resolve n (p ++ q)%list =
  match Fs.resolve n p with
  | Some n' => Fs.resolve n' q
  | None => None
  end.
Proof.
  revert n. induction p as [|c p IH]; intros n; simpl; [reflexivity|].
  destruct n as [d|es]; [reflexivity|]. destruct (assoc c es); [apply IH | reflexivity].
Qed.

Lemma stat_resolve (d : dir) (p : path) (n : node) :
  Fs.stat d p = Some n -> Fs.resolve (Dir d) (parts p) = Some n.
Proof.
  unfold Fs.stat. destruct (parts p) as [|c cs]; [discriminate|].
  destruct (Fs.resolve (Dir d) (c :: cs)) as [[x|es]|]; try congruence.
  destruct (trailing_slash p); congruence.
Qed.

Lemma stat_joined (d : dir) (root : path) (f : string) (x : node) :
  Fs.resolve (Dir d) (parts (os_path_join root f)) = Some x ->
  Fs.stat d (os_path_join root f) <> None.
Proof.
  unfold Fs.stat. intros ->. simpl.
  destruct (parts root ++ [f])%list eqn:E; [now destruct (parts root) | now destruct x].
Qed.

Lemma stat_top (d : dir) (c : string) (b : bool) :
  Fs.stat d (mkPath [c] b) =
  match assoc c d with
  | Some (File x) => if b then None else Some (File x)
  | r => r
  end.
Proof. unfold Fs.stat. simpl. now destruct (assoc c d) as [[]|]. Qed.

Lemma walk_Dir (top : path) (es : dir) :
  Fs.walk top (Dir es) =
  (top, Fs.dirnames es, Fs.filenames es) ::
  flat_map (fun e => match snd e with
                     | Dir _ => Fs.walk (os_path_join top (fst e)) (snd e)
                     | File _ => []
                     end) (Fs.listdir es).
Proof.
  simpl. f_equal. unfold Fs.listdir. generalize (@nil string).
  induction es as [|[k c] es IH]; intros seen; [reflexivity|].
  cbn [Fs.visible]. destruct (existsb (String.eqb k) seen); [apply IH|].
  cbn [flat_map fst snd]. rewrite <- IH. destruct c; reflexivity.
Qed.

Lemma filenames_in (es : dir) (f : string) :
  In f (Fs.filenames es) -> exists x, In (f, x) (Fs.listdir es).
Proof.
  unfold Fs.filenames. intros H. apply in_map_iff in H as [[k x] [<- H]].
  apply filter_In in H as [H _]. now exists x.
Qed.

(** Every file [os.walk] reports is found again under its joined path. *)
Lemma walk_files_found (root0 : node) (n : node) :
  forall top, Fs.resolve root0 (parts top) = Some n ->
  forall root ds fs f, In (root, ds, fs) (Fs.walk top n) -> In f fs ->
  exists x, Fs.resolve root0 (parts (os_path_join root f)) = Some x.
Proof.
  induction n as [d|es IH] using node_induction; intros top Htop root ds fs f Hin Hf.
  - destruct Hin.
  - rewrite walk_Dir in Hin. destruct Hin as [Heq|Hin].
    + inversion Heq; subst. apply filenames_in in Hf as [x Hx].
      exists x. simpl. rewrite resolve_app, Htop. simpl. now rewrite (listdir_assoc _ _ _ Hx).
    + apply in_flat_map in Hin as [[name child] [He Hin]]. simpl in Hin.
      destruct child as [d|es']; [destruct Hin|].
      rewrite Forall_forall in IH.
      apply (IH _ (visible_in _ _ _ He) (os_path_join top name)) with (ds := ds) (fs := fs);
        try assumption.
      simpl. rewrite resolve_app, Htop. simpl. now rewrite (listdir_assoc _ _ _ He).
Qed.

(** ** Loops *)

Lemma for_preserves {A : Type} (P : world -> Prop) (body : A -> M unit) (xs : list A) :
  (forall x w, P w -> P (fst (body x w))) ->
  forall w, P w -> P (fst (for_ xs body w)).
Proof.
  intros Hbody. induction xs as [|x xs IH]; intros w Hw; simpl; [exact Hw|].
  unfold bind. specialize (Hbody x w Hw). destruct (body x w) as [w' [[]|e]]; simpl in *.
  - now apply IH.
  - exact Hbody.
Qed.

Lemma for_ok {A : Type} (P : world -> Prop) (body : A -> M unit) (xs : list A) :
  (forall x, In x xs -> forall w, P w -> exists w', body x w = (w', Ret tt) /\ P w') ->
  forall w, P w -> exists w', for_ xs body w = (w', Ret tt) /\ P w'.
Proof.
  induction xs as [|x xs IH]; intros Hbody w Hw; simpl.
  - exists w. split; [reflexivity | exact Hw].
  - destruct (Hbody x (or_introl eq_refl) w Hw) as [w1 [E1 H1]].
    destruct (IH (fun y Hy => Hbody y (or_intror Hy)) w1 H1) as [w2 [E2 H2]].
    exists w2. unfold bind. rewrite E1. split; [exact E2 | exact H2].
Qed.

Lemma for_app {A : Type} (xs ys : list A) (body : A -> M unit) (w : world) :
  for_ (xs ++ ys)%list body w = (for_ xs body ;; for_ ys body) w.
Proof.
  revert w. induction xs as [|x xs IH]; intros w; simpl.
  - reflexivity.
  - unfold bind. destruct (body x w) as [w1 [[]|e]]; [|reflexivity].
    rewrite IH. reflexivity.
Qed.

Lemma printing_nil (w : world) : printing [] w = w.
Proof. unfold printing. rewrite app_nil_r. now destruct w. Qed.

Lemma printing_write (s : string) (lines : list string) (w : world) :
  printing lines (write s w) = printing (s :: lines) w.
Proof. unfold printing, write. simpl. now rewrite <- app_assoc. Qed.

Lemma for_print {A : Type} (f : A -> string) (xs : list A) (w : world) :
  for_ xs (fun x => print (f x)) w = (printing (map (fun x => Text.line (f x)) xs) w, Ret tt).
Proof.
  revert w. induction xs as [|x xs IH]; intros w; simpl.
  - now rewrite printing_nil.
  - unfold bind, print at 1. rewrite IH. now rewrite printing_write.
Qed.

(** Steps of a computation that starts by printing or reading. *)
Lemma print_then {A : Type} (s : string) (k : M A) (w : world) :
  (print s ;; k) w = k (write (Text.line s) w).
Proof. reflexivity. Qed.

Lemma input_then {A : Type} (prompt line : string) (rest : list string)
    (k : string -> M A) (w : world) :
  stdin w = line :: rest ->
  bind (input prompt) k w = k line (set_stdin rest (write prompt w)).
Proof. intros H. unfold bind, input. cbn [stdin write]. rewrite H. reflexivity. Qed.

Lemma input_at_end {A : Type} (prompt : string) (k : string -> M A) (w : world) :
  stdin w = [] -> bind (input prompt) k w = (write prompt w, Raise EOFError).
Proof. intros H. unfold bind, input. cbn [stdin write]. rewrite H. reflexivity. Qed.

Lemma stdin_write (s : string) (w : world) : stdin (write s w) = stdin w.
Proof. reflexivity. Qed.

Lemma stdin_printing (lines : list string) (w : world) : stdin (printing lines w) = stdin w.
Proof. reflexivity. Qed.

Lemma write_printing (s : string) (w : world) : write s w = printing [s] w.
Proof. reflexivity. Qed.

Lemma printing_printing (l1 l2 : list string) (w : world) :
  printing l2 (printing l1 w) = printing (l1 ++ l2) w.
Proof. unfold printing. cbn [fs stdin printed clock spawned shell open_zip]. now rewrite app_assoc. Qed.

Lemma set_stdin_printing (rest : list string) (lines : list string) (w : world) :
  set_stdin rest (printing lines w) =
    mkWorld (fs w) rest (printed w ++ lines) (clock w) (spawned w) (shell w) (open_zip w).
Proof. reflexivity. Qed.

Lemma printing_set_stdin (lines rest : list string) (w : world) :
  printing lines (set_stdin rest w) = set_stdin rest (printing lines w).
Proof. reflexivity. Qed.

Lemma for_print_then {A B : Type} (f : A -> string) (xs : list A) (k : M B) (w : world) :
  (for_ xs (fun x => print (f x)) ;; k) w = k (printing (map (fun x => Text.line (f x)) xs) w).
Proof. unfold bind at 1. rewrite for_print. reflexivity. Qed.

Lemma menu_shown (opts : menu) (w : world) :
  write choice_prompt
    (printing (map (fun e => Text.line (show_entry e)) opts) (write menu_heading w)) =
  printing (menu_text opts) w.
Proof. rewrite write_printing, printing_printing, printing_write. reflexivity. Qed.

(** ** Text *)

Lemma lower_char_y (c : ascii) :
  Text.lower_char c = "y"%char -> c = "y"%char \/ c = "Y"%char.
Proof.
  destruct c as [[] [] [] [] [] [] [] []]; vm_compute; intro H;
    first [ discriminate H | now left | now right ].
Qed.

Lemma lower_is_y (s : string) : Text.lower s = "y" <-> s = "y" \/ s = "Y".
Proof.
  split.
  - destruct s as [|c [|c' s']]; simpl; intro H; try discriminate H.
    injection H as H. destruct (lower_char_y c H); subst; auto.
  - intros [-> | ->]; reflexivity.
Qed.

Lemma append_assoc (a b c : string) : (a ++ b) ++ c = a ++ (b ++ c).
Proof. induction a as [|x a IH]; simpl; [reflexivity | now rewrite IH]. Qed.

Lemma append_nil_r (a : string) : a ++ EmptyString = a.
Proof. induction a as [|x a IH]; simpl; [reflexivity | now rewrite IH]. Qed.

Lemma length_app (a b : string) : String.length (a ++ b) = String.length a + String.length b.
Proof. induction a as [|c a IH]; simpl; [reflexivity | now rewrite IH]. Qed.

Lemma all_digits_app (a b : string) :
  Text.all_digits (a ++ b) = Text.all_digits a && Text.all_digits b.
Proof. induction a as [|c a IH]; simpl; [reflexivity|]. now rewrite IH, andb_assoc. Qed.

Lemma no_slash_app (a b : string) : no_slash (a ++ b) = no_slash a && no_slash b.
Proof. induction a as [|c a IH]; simpl; [reflexivity|]. now rewrite IH, andb_assoc. Qed.

Lemma decimal_from_app (a b : string) (acc : N) :
  Text.decimal_from acc (a ++ b) = Text.decimal_from (Text.decimal_from acc a) b.
Proof. revert acc. induction a as [|c a IH]; intros acc; simpl; [reflexivity | apply IH]. Qed.

(** The last decimal digit of [n], as a fact [lia] can use. *)
Ltac last_digit n :=
  let H := fresh "H" in
  assert (H : (n mod 10 < 10)%N) by (apply N.mod_upper_bound; discriminate);
  revert H; generalize (n mod 10)%N; intros ? H.

Lemma digit_code (n : N) : N_of_ascii (Text.digit n) = (48 + n mod 10)%N.
Proof. unfold Text.digit. apply N_ascii_embedding. last_digit n. lia. Qed.

Lemma digit_is_digit (n : N) : Text.is_digit (Text.digit n) = true.
Proof.
  unfold Text.is_digit, Text.between. rewrite digit_code. last_digit n.
  apply andb_true_intro; split; apply N.leb_le; lia.
Qed.

Lemma digit_not_slash (n : N) : Ascii.eqb (Text.digit n) Path.slash = false.
Proof.
  apply Ascii.eqb_neq. intros H. apply (f_equal N_of_ascii) in H.
  rewrite digit_code in H. vm_compute (N_of_ascii Path.slash) in H.
  revert H. last_digit n. lia.
Qed.

Lemma zero_padded_length (w : nat) (n : N) : String.length (Text.zero_padded w n) = w.
Proof.
  revert n. induction w as [|w IH]; intros n; simpl; [reflexivity|].
  rewrite length_app, IH. simpl. lia.
Qed.

Lemma zero_padded_digits (w : nat) (n : N) : Text.all_digits (Text.zero_padded w n) = true.
Proof.
  revert n. induction w as [|w IH]; intros n; simpl; [reflexivity|].
  rewrite all_digits_app, IH. simpl. now rewrite digit_is_digit.
Qed.

Lemma zero_padded_no_slash (w : nat) (n : N) : no_slash (Text.zero_padded w n) = true.
Proof.
  revert n. induction w as [|w IH]; intros n; simpl; [reflexivity|].
  rewrite no_slash_app, IH. simpl. now rewrite digit_not_slash.
Qed.

Lemma zero_padded_decimal (w : nat) (n : N) :
  Text.decimal (Text.zero_padded w n) = (n mod 10 ^ N.of_nat w)%N.
Proof.
  unfold Text.decimal. revert n. induction w as [|w IH]; intros n.
  - simpl. now rewrite N.mod_1_r.
  - cbn [Text.zero_padded]. rewrite decimal_from_app, IH. cbn [Text.decimal_from].
    rewrite digit_code. rewrite Nnat.Nat2N.inj_succ, N.pow_succ_r'.
    rewrite (N.Div0.mod_mul_r n 10 (10 ^ N.of_nat w)).
    generalize (n mod 10)%N ((n / 10) mod 10 ^ N.of_nat w)%N. intros a b. lia.
Qed.

Lemma zero_padded_exact (w : nat) (n : N) :
  (n < 10 ^ N.of_nat w)%N -> Text.decimal (Text.zero_padded w n) = n.
Proof. intros H. rewrite zero_padded_decimal. now apply N.mod_small. Qed.

(** ** Paths *)

Lemma pieces_no_slash (s cur : string) :
  no_slash s = true -> Path.pieces cur s = [cur ++ s].
Proof.
  revert cur. induction s as [|c s IH]; intros cur H; simpl.
  - now rewrite append_nil_r.
  - simpl in H. apply andb_prop in H as [Hc Hs]. apply negb_true_iff in Hc. rewrite Hc.
    rewrite IH by exact Hs. now rewrite append_assoc.
Qed.

Lemma of_string_plain (s : string) :
  no_slash s = true -> s <> EmptyString -> Path.of_string s = mkPath [s] false.
Proof.
  intros Hs Hne. unfold Path.of_string. rewrite pieces_no_slash by exact Hs. simpl.
  assert (E : (s =? EmptyString) = false) by now apply String.eqb_neq.
  unfold Path.nonempty. rewrite E. reflexivity.
Qed.

Lemma zip_filename_plain (now : datetime) :
  Path.of_string (zip_filename_at now) = mkPath [zip_filename_at now] false.
Proof.
  apply of_string_plain; [|discriminate].
  unfold zip_filename_at, strftime_Ymd.
  rewrite !no_slash_app, !zero_padded_no_slash. reflexivity.
Qed.

Lemma zip_filename_digits (now : datetime) :
  zip_filename_at now =
  "delta-optimizer-" ++ Text.zero_padded 4 (year now) ++ Text.zero_padded 2 (month now)
    ++ Text.zero_padded 2 (day now) ++ ".zip".
Proof. unfold zip_filename_at, strftime_Ymd. now rewrite !append_assoc. Qed.

Lemma zip_filename_not_listed (now : datetime) (c : string) :
  In c ("delta_optimizer" :: "examples" :: named_files) -> c <> zip_filename_at now.
Proof.
  intros Hin E. rewrite zip_filename_digits in E. simpl in Hin.
  repeat (destruct Hin as [<-|Hin]; [discriminate E|]). destruct Hin.
Qed.

(** Replace [Path.of_string] of a literal by its value. *)
Ltac parse_literal_path :=
  match goal with
  | |- context [Path.of_string ?s] =>
      let p := eval vm_compute in (Path.of_string s) in
      change (Path.of_string s) with p
  end.

Lemma stat_listed_put (now : datetime) (x : node) (d : dir) (item : string) :
  In item files_to_include ->
  Fs.stat (Fs.put (zip_filename_at now) x d) (Path.of_string item) = Fs.stat d (Path.of_string item).
Proof.
  intros Hin. simpl in Hin.
  repeat (destruct Hin as [<-|Hin];
          [ parse_literal_path; rewrite !stat_top, assoc_put_other;
            [reflexivity | apply zip_filename_not_listed; simpl; tauto] |]).
  destruct Hin.
Qed.

(** ** The command wrapper *)

Lemma run_command_eq (command description : string) (w : world) :
  run_command command description w =
  let '(r, d) := shell w (spawned w) command (fs w) in
  if (returncode r =? 0)%Z
  then (after_run command w d [Text.line ("🚀 " ++ description ++ "...");
                               Text.line ("✅ " ++ description ++ " completed successfully")],
        Ret true)
  else (after_run command w d [Text.line ("🚀 " ++ description ++ "...");
                               Text.line ("❌ " ++ description ++ " failed:");
                               Text.line ("Error: " ++ stderr r)],
        Ret false).
Proof.
  unfold run_command, bind, try_except, print, subprocess_run, ret, write, after_command, after_run.
  simpl. destruct (shell w (spawned w) command (fs w)) as [r d]. simpl.
  destruct (returncode r =? 0)%Z; simpl; rewrite <- !app_assoc; reflexivity.
Qed.



Lemma run_command_prints (command description : string) (w : world) :
  exists w' b out,
    run_command command description w = (w', Ret b) /\
    printed w' = (printed w ++ out)%list /\ out <> [] /\
    spawned w' = (spawned w ++ [command])%list.
Proof.
  rewrite run_command_eq. destruct (shell w (spawned w) command (fs w)) as [r d].
  destruct (returncode r =? 0)%Z; do 3 eexists; (split; [reflexivity|]);
    simpl; repeat split; discriminate.
Qed.

Lemma run_each_prints (commands : list string) (description : string) (w : world) :
  exists w' b out,
    run_each commands description w = (w', Ret (PBool b)) /\
    printed w' = (printed w ++ out)%list /\ (commands <> [] -> out <> []).
Proof.
  revert w. induction commands as [|cmd rest IH]; intros w; simpl.
  - exists w, true, []. rewrite app_nil_r. repeat split. congruence.
  - unfold bind.
    destruct (run_command_prints cmd description w) as [w1 [b [out [E [Hp [Hne _]]]]]].
    rewrite E. destruct b; simpl.
    + destruct (IH w1) as [w2 [b2 [out2 [E2 [Hp2 _]]]]].
      exists w2, b2, (out ++ out2)%list. rewrite E2, Hp2, Hp, app_assoc. repeat split.
      intros _ H. apply app_eq_nil in H as [H _]. now apply Hne.
    + exists w1, false, out. repeat split; [exact Hp | intros _; exact Hne].
Qed.

Lemma build_package_reports (w : world) : reports_boolean build_package w.
Proof.
  destruct (run_each_prints ["python setup.py sdist bdist_wheel"; "python -m build"]
              "Building package" w) as [w' [b [out [E [Hp Hne]]]]].
  exists w', b, out. repeat split; [exact E | exact Hp | apply Hne; discriminate].
Qed.

Lemma run_tests_reports (w : world) : reports_boolean run_tests w.
Proof.
  destruct (run_each_prints tests "Running validation test" w) as [w' [b [out [E [Hp Hne]]]]].
  exists w', b, out. repeat split; [exact E | exact Hp | apply Hne; discriminate].
Qed.

Lemma install_locally_reports (w : world) : reports_boolean install_locally w.
Proof.
  destruct (run_command_prints "pip install ." "Installing package locally" w)
    as [w' [b [out [E [Hp [Hne _]]]]]].
  exists w', b, out. unfold install_locally, bind. rewrite E. repeat split; assumption.
Qed.

(** ** Clean *)

Lemma remove_if_exists_cases (name : string) (w : world) :
  Path.of_string name = mkPath [name] false ->
  remove_if_exists name w =
  match assoc name (fs w) with
  | None => (w, Ret tt)
  | Some (Dir _) =>
      (write (Text.line ("🧹 Removed " ++ name ++ "/")) (set_fs (Fs.remove name (fs w)) w), Ret tt)
  | Some (File _) => (w, Raise (NotADirectoryError name))
  end.
Proof.
  intros Hp. unfold remove_if_exists, bind, os_path_exists, shutil_rmtree, Fs.stat, print.
  rewrite Hp; simpl.
  destruct (assoc name (fs w)) as [[d|es]|] eqn:E; simpl; rewrite ?E; reflexivity.
Qed.

Lemma remove_if_exists_spawned (name : string) (w : world) :
  spawned (fst (remove_if_exists name w)) = spawned w.
Proof.
  unfold remove_if_exists, bind, os_path_exists, shutil_rmtree, print, ret.
  destruct (Fs.stat (fs w) (Path.of_string name)) as [[d|es]|] eqn:E; simpl; rewrite ?E;
    try reflexivity.
  destruct (Fs.remove_tree _ _); reflexivity.
Qed.

Lemma clean_value (w w' : world) (v : pyval) :
  clean_build_files w = (w', Ret v) -> v = PNone.
Proof.
  unfold clean_build_files, bind, ret.
  destruct (for_ build_dirs remove_if_exists w) as [w1 [[]|e]]; intros H; inversion H; reflexivity.
Qed.

Lemma clean_spawned (w : world) : spawned (fst (clean_build_files w)) = spawned w.
Proof.
  unfold clean_build_files, bind, ret.
  pose proof (for_preserves (fun w' => spawned w' = spawned w) remove_if_exists build_dirs) as H.
  specialize (H (fun x w0 Hw0 => eq_trans (remove_if_exists_spawned x w0) Hw0) w eq_refl).
  cbv beta in H.
  destruct (for_ build_dirs remove_if_exists w) as [w1 [[]|e]]; exact H.
Qed.

(** C1 (the code departs from the claim).  In every world the full pipeline
    is clean alone: [clean_build_files] hands back [None], which [and]
    takes for a failure, so the pipeline stops there.  It spawns no
    command -- build, install and test never run, whether or not they
    would succeed -- and its value, when it has one, is [None]. *)
Theorem full_pipeline_stops_after_clean (w : world) :
  full_pipeline w = clean_build_files w /\
  spawned (fst (full_pipeline w)) = spawned w /\
  match snd (full_pipeline w) with
  | Ret v => v = PNone
  | Raise _ => True
  end.
Proof.
  assert (E : full_pipeline w = clean_build_files w).
  { unfold full_pipeline, py_and at 1, bind.
    destruct (clean_build_files w) as [w' [v|e]] eqn:Hc; [|reflexivity].
    now rewrite (clean_value _ _ _ Hc). }
  split; [exact E|]. rewrite E. split; [apply clean_spawned|].
  destruct (clean_build_files w) as [w' [v|e]] eqn:Hc; [|exact I].
  exact (clean_value _ _ _ Hc).
Qed.

(** With a build directory to remove and every command ready to succeed,
    the pipeline removes the directory and runs nothing. *)
Example full_pipeline_on_a_healthy_project :
  full_pipeline (Sample.world_of Sample.project [] Sample.every_command_succeeds) =
    (mkWorld (Fs.remove "build" Sample.project) [] [Text.line "🧹 Removed build/"]
             Sample.today [] Sample.every_command_succeeds None,
     Ret PNone).
Proof. reflexivity. Qed.

Lemma clean_when_absent (w : world) :
  (forall name, In name build_dirs -> assoc name (fs w) = None) ->
  clean_build_files w = (w, Ret PNone).
Proof.
  intros H. unfold clean_build_files, build_dirs, for_, bind at 1 2 3 4.
  rewrite remove_if_exists_cases by reflexivity. rewrite (H "build") by (simpl; auto).
  rewrite remove_if_exists_cases by reflexivity. rewrite (H "dist") by (simpl; auto).
  rewrite remove_if_exists_cases by reflexivity.
  rewrite (H "delta_optimizer.egg-info") by (simpl; auto).
  reflexivity.
Qed.

Lemma remove_if_exists_ok (name : string) (w : world) :
  Path.of_string name = mkPath [name] false -> absent_or_directory name (fs w) ->
  exists out,
    remove_if_exists name w =
      (mkWorld (Fs.remove name (fs w)) (stdin w) (printed w ++ out)%list (clock w) (spawned w)
               (shell w) (open_zip w), Ret tt).
Proof.
  intros Hp Hn. rewrite remove_if_exists_cases by exact Hp. unfold absent_or_directory in Hn.
  destruct (assoc name (fs w)) as [[d|es]|] eqn:E; [contradiction| |].
  - eexists; reflexivity.
  - exists []. rewrite (remove_absent _ _ E), app_nil_r. now destruct w.
Qed.

Lemma absent_or_directory_remove (k name : string) (d : dir) :
  absent_or_directory name d -> absent_or_directory name (Fs.remove k d).
Proof.
  unfold absent_or_directory. destruct (String.eqb_spec name k) as [->|Hne].
  - now rewrite assoc_remove_same.
  - now rewrite assoc_remove_other.
Qed.

Lemma cleaned_absent (d : dir) (name : string) :
  In name build_dirs -> assoc name (cleaned d) = None.
Proof.
  unfold cleaned. intros [<-|[<-|[<-|[]]]].
  - rewrite !assoc_remove_other by discriminate. apply assoc_remove_same.
  - rewrite !assoc_remove_other by discriminate. apply assoc_remove_same.
  - apply assoc_remove_same.
Qed.

(** C6, as amended.  From any world in which each of [build], [dist] and
    [delta_optimizer.egg-info] is absent or a directory, clean run twice
    completes both times with no exception (its value is [None]); the
    first run leaves the working directory without the three names and
    otherwise as it was, and the second run finds nothing to delete and
    changes nothing at all: the world after two runs is the world after
    one. *)
Theorem clean_twice (w : world) :
  (forall name, In name build_dirs -> absent_or_directory name (fs w)) ->
  exists w1,
    clean_build_files w = (w1, Ret PNone) /\
    clean_build_files w1 = (w1, Ret PNone) /\
    fs w1 = cleaned (fs w) /\
    (forall name, In name build_dirs -> assoc name (fs w1) = None).
Proof.
  intros H.
  destruct (remove_if_exists_ok "build" w eq_refl (H _ (or_introl eq_refl))) as [o1 E1].
  set (w1 := mkWorld _ _ _ _ _ _ _) in E1.
  destruct (remove_if_exists_ok "dist" w1 eq_refl) as [o2 E2].
  { apply absent_or_directory_remove, H. simpl; auto. }
  set (w2 := mkWorld _ _ _ _ _ _ _) in E2.
  destruct (remove_if_exists_ok "delta_optimizer.egg-info" w2 eq_refl) as [o3 E3].
  { do 2 apply absent_or_directory_remove. apply H. simpl; auto. }
  set (w3 := mkWorld _ _ _ _ _ _ _) in E3.
  exists w3.
  assert (Habs : forall name, In name build_dirs -> assoc name (fs w3) = None).
  { intros name Hin. exact (cleaned_absent (fs w) name Hin). }
  repeat split.
  - unfold clean_build_files, build_dirs, for_, bind at 1 2 3 4. rewrite E1, E2, E3. reflexivity.
  - apply clean_when_absent, Habs.
  - exact Habs.
Qed.

Lemma clean_twice_witness :
  exists w1,
    clean_build_files (Sample.world_of Sample.project [] Sample.every_command_succeeds)
      = (w1, Ret PNone) /\
    clean_build_files w1 = (w1, Ret PNone) /\
    fs w1 = cleaned Sample.project /\
    (forall name, In name build_dirs -> assoc name (fs w1) = None).
Proof.
  apply (clean_twice (Sample.world_of Sample.project [] Sample.every_command_succeeds)).
  intros name [<-|[<-|[<-|[]]]]; exact I.
Defined.

(** C6 as stated fails: where [build] is a regular file, the first run of
    clean already ends in [NotADirectoryError]. *)
Lemma clean_fails_on_a_file_named_build :
  clean_build_files (Sample.world_of Sample.build_is_a_script [] Sample.every_command_succeeds) =
    (Sample.world_of Sample.build_is_a_script [] Sample.every_command_succeeds,
     Raise (NotADirectoryError "build")).
Proof. reflexivity. Qed.

(** ** Upload *)

Lemma upload_eq (w : world) (response : string) (rest : list string) :
  stdin w = response :: rest ->
  upload_to_pypi w =
  if negb (Text.lower response =? "y")
  then (write (Text.line "Upload cancelled") (asked w rest), Ret (PBool false))
  else (ok <- run_command "twine upload dist/*" "Uploading to PyPI" ;; ret (PBool ok))
         (asked w rest).
Proof.
  intros Hin. unfold upload_to_pypi. rewrite !print_then.
  rewrite (input_then _ response rest) by (rewrite !stdin_write; exact Hin).
  rewrite write_printing, !printing_write, set_stdin_printing.
  fold upload_notes. fold (asked w rest).
  destruct (negb (Text.lower response =? "y")); reflexivity.
Qed.

(** C5.  Whenever the confirmation prompt receives an answer other than
    [y] (in either case, as C9 spells out), the upload operation returns
    False without running any command: nothing is spawned, so twine is
    never invoked, and the working directory is as it was. *)
Theorem upload_needs_yes (w : world) (response : string) (rest : list string) :
  stdin w = response :: rest ->
  response <> "y" -> response <> "Y" ->
  exists w',
    upload_to_pypi w = (w', Ret (PBool false)) /\
    spawned w' = spawned w /\ fs w' = fs w.
Proof.
  intros Hin Hy HY. rewrite (upload_eq w response rest Hin).
  destruct (Text.lower response =? "y") eqn:E.
  - apply String.eqb_eq, lower_is_y in E. tauto.
  - simpl. eexists. split; [reflexivity|]. split; reflexivity.
Qed.

Lemma upload_needs_yes_witness :
  exists w',
    upload_to_pypi (Sample.world_of Sample.project ["yes"] Sample.every_command_succeeds) =
      (w', Ret (PBool false)) /\
    spawned w' = [] /\ fs w' = Sample.project.
Proof.
  apply (upload_needs_yes (Sample.world_of Sample.project ["yes"] Sample.every_command_succeeds)
           "yes" [] eq_refl); discriminate.
Defined.

(** C9.  The answer is compared after lowercasing, and not stripped: its
    lowercase form is [y] exactly for the two answers [y] and [Y].  For
    these the upload command is run (the one command spawned is
    [twine upload dist/*]); for every other answer, an answer with
    surrounding whitespace included, the upload is cancelled: the
    cancellation is printed, False is returned and nothing is spawned. *)
Theorem upload_confirmation (w : world) (response : string) (rest : list string) :
  stdin w = response :: rest ->
  (Text.lower response = "y" <-> response = "y" \/ response = "Y") /\
  (response = "y" \/ response = "Y" ->
   exists w' b,
     upload_to_pypi w = (w', Ret (PBool b)) /\
     spawned w' = (spawned w ++ ["twine upload dist/*"])%list) /\
  (~ (response = "y" \/ response = "Y") ->
   upload_to_pypi w = (write (Text.line "Upload cancelled") (asked w rest), Ret (PBool false)) /\
   spawned (write (Text.line "Upload cancelled") (asked w rest)) = spawned w).
Proof.
  intros Hin. split; [apply lower_is_y|]. rewrite (upload_eq w response rest Hin). split.
  - intros Hyes. apply lower_is_y in Hyes. rewrite Hyes. simpl. unfold bind.
    destruct (run_command_prints "twine upload dist/*" "Uploading to PyPI" (asked w rest))
      as [w' [b [out [E [_ [_ Hs]]]]]].
    rewrite E. exists w', b. split; [reflexivity | exact Hs].
  - intros Hno. destruct (Text.lower response =? "y") eqn:E.
    + apply String.eqb_eq, lower_is_y in E. contradiction.
    + simpl. split; reflexivity.
Qed.

Lemma upload_confirmation_witness :
  (exists w' b,
     upload_to_pypi (Sample.world_of Sample.project ["Y"] Sample.every_command_succeeds) =
       (w', Ret (PBool b)) /\
     spawned w' = ["twine upload dist/*"]) /\
  (upload_to_pypi (Sample.world_of Sample.project [" y"] Sample.every_command_succeeds) =
     (write (Text.line "Upload cancelled")
            (asked (Sample.world_of Sample.project [" y"] Sample.every_command_succeeds) []),
      Ret (PBool false))).
Proof.
  split.
  - apply (proj1 (proj2 (upload_confirmation
                           (Sample.world_of Sample.project ["Y"] Sample.every_command_succeeds)
                           "Y" [] eq_refl))).
    now right.
  - apply (proj2 (proj2 (upload_confirmation
                           (Sample.world_of Sample.project [" y"] Sample.every_command_succeeds)
                           " y" [] eq_refl))).
    intros [H|H]; discriminate H.
Defined.

(** ** The archive *)

Lemma zipf_write_ok (w0 w : world) (name : string) (ms0 : list (string * data))
    (p : path) (arcname : string) :
  archiving w0 name ms0 w -> Fs.stat (fs w0) p <> None ->
  exists w', zipf_write p arcname w = (w', Ret tt) /\ archiving w0 name ms0 w'.
Proof.
  intros [ms ->] Hp. unfold zipf_write. simpl.
  destruct (Fs.stat (fs w0) p) as [[d|es]|]; [| |congruence];
    eexists; (split; [reflexivity|]); eexists; simpl; rewrite <- app_assoc; reflexivity.
Qed.

Lemma zipf_write_fs (p : path) (arcname : string) (w : world) :
  fs (fst (zipf_write p arcname w)) = fs w.
Proof.
  unfold zipf_write. destruct (open_zip w); [|reflexivity].
  destruct (Fs.stat (fs w) p) as [[]|]; reflexivity.
Qed.

Lemma add_item_skip (item : string) (w : world) :
  Fs.stat (fs w) (Path.of_string item) = None -> add_item item w = (w, Ret tt).
Proof. intros H. unfold add_item, bind, os_path_exists. now rewrite H. Qed.

Lemma add_item_fs (item : string) (w : world) : fs (fst (add_item item w)) = fs w.
Proof.
  unfold add_item, bind at 1, os_path_exists.
  destruct (Fs.stat (fs w) (Path.of_string item)) as [n|] eqn:Hst; [|reflexivity].
  unfold bind at 1, os_path_isdir. rewrite Hst. destruct n as [d|es].
  - apply zipf_write_fs.
  - unfold bind at 1, os_walk. rewrite Hst.
    apply (for_preserves (fun w' => fs w' = fs w)); [|reflexivity].
    intros [[root ds] files] w1 H1.
    apply (for_preserves (fun w' => fs w' = fs w)); [|exact H1].
    intros f w2 H2. now rewrite zipf_write_fs.
Qed.

(** No item makes the loop raise. *)
Lemma add_item_ok (w0 w : world) (name item : string) (ms0 : list (string * data)) :
  archiving w0 name ms0 w ->
  exists w', add_item item w = (w', Ret tt) /\ archiving w0 name ms0 w'.
Proof.
  intros Hw. unfold add_item, bind at 1, os_path_exists.
  assert (Hfs : fs w = fs w0) by (destruct Hw as [ms ->]; reflexivity).
  rewrite Hfs.
  destruct (Fs.stat (fs w0) (Path.of_string item)) as [n|] eqn:Hst.
  2:{ exists w. split; [reflexivity | exact Hw]. }
  unfold bind at 1, os_path_isdir. rewrite Hfs, Hst.
  destruct n as [d|es].
  - apply zipf_write_ok; [exact Hw | congruence].
  - unfold bind, os_walk. rewrite Hfs, Hst.
    apply for_ok; [|exact Hw].
    intros [[root ds] files] Hin w1 Hw1.
    apply for_ok; [|exact Hw1].
    intros f Hf w2 Hw2. apply zipf_write_ok; [exact Hw2|].
    pose proof (stat_resolve _ _ _ Hst) as Hres.
    destruct (walk_files_found (Dir (fs w0)) (Dir es) _ Hres root ds files f Hin Hf)
      as [x Hx].
    exact (stat_joined _ _ _ _ Hx).
Qed.

Lemma add_items_ok (w0 : world) (name : string) (items : list string)
    (ms0 : list (string * data)) :
  exists extra,
    for_ items add_item (set_open_zip (Some (mkZip name ms0)) w0) =
      (set_open_zip (Some (mkZip name (ms0 ++ extra)%list)) w0, Ret tt).
Proof.
  destruct (for_ok (archiving w0 name ms0) add_item items) with
    (w := set_open_zip (Some (mkZip name ms0)) w0) as [w' [Hfor [extra ->]]].
  - intros item _ w2 Hw2. now apply add_item_ok.
  - exists []. now rewrite app_nil_r.
  - now exists extra.
Qed.

(** A regular file among the items ends up in the archive under its own name. *)
Lemma add_items_keeps (w0 : world) (name f : string) (d : data) (items : list string) :
  In f items ->
  Fs.stat (fs w0) (Path.of_string f) = Some (File d) ->
  exists ms,
    for_ items add_item (set_open_zip (Some (mkZip name [])) w0) =
      (set_open_zip (Some (mkZip name ms)) w0, Ret tt) /\
    In (f, d) ms.
Proof.
  intros Hin Hst. apply in_split in Hin as [pre [post ->]].
  destruct (add_items_ok w0 name pre []) as [e1 E1]. simpl in E1.
  destruct (add_items_ok w0 name post (e1 ++ [(f, d)])%list) as [e2 E2].
  exists ((e1 ++ [(f, d)]) ++ e2)%list. split.
  - rewrite for_app. unfold bind at 1. rewrite E1. cbn [for_]. unfold bind at 1.
    assert (Ef : add_item f (set_open_zip (Some (mkZip name e1)) w0) =
                 (set_open_zip (Some (mkZip name (e1 ++ [(f, d)])%list)) w0, Ret tt)).
    { unfold add_item, bind, os_path_exists, os_path_isdir, zipf_write.
      unfold set_open_zip. cbn [fs open_zip]. rewrite Hst.
      cbn [fs open_zip]. rewrite Hst. cbn [fs open_zip]. rewrite Hst. reflexivity. }
    rewrite Ef. exact E2.
  - apply in_or_app. left. apply in_or_app. right. now left.
Qed.

Lemma for_add_item_present (items : list string) (w : world) :
  for_ items add_item w = for_ (filter (present (fs w)) items) add_item w.
Proof.
  revert w. induction items as [|item items IH]; intros w; [reflexivity|].
  cbn [filter for_]. destruct (present (fs w) item) eqn:Hp.
  - cbn [for_]. unfold bind. pose proof (add_item_fs item w) as Hfs.
    destruct (add_item item w) as [w1 [[]|e]]; [|reflexivity].
    simpl in Hfs. rewrite IH, Hfs. reflexivity.
  - unfold present in Hp.
    destruct (Fs.stat (fs w) (Path.of_string item)) eqn:Hst; [discriminate|].
    unfold bind. rewrite (add_item_skip item w Hst). apply IH.
Qed.

Lemma with_ZipFile_w_ok {A : Type} (name : string) (body : M A) (w : world)
    (ms : list (string * data)) (a : A) :
  Path.of_string name = mkPath [name] false ->
  not_a_directory name (fs w) ->
  body (set_open_zip (Some (mkZip name [])) (set_fs (Fs.put name (File (Zip [])) (fs w)) w)) =
    (set_open_zip (Some (mkZip name ms)) (set_fs (Fs.put name (File (Zip [])) (fs w)) w), Ret a) ->
  with_ZipFile_w name body w =
    (set_open_zip None (set_fs (Fs.put name (File (Zip ms)) (fs w)) w), Ret a).
Proof.
  intros Hp Hfree Hbody. unfold with_ZipFile_w. rewrite Hp. unfold Fs.stat. simpl.
  unfold not_a_directory in Hfree.
  destruct (assoc name (fs w)) as [[d|es]|]; [| contradiction |];
    rewrite Hbody; simpl; now rewrite put_put.
Qed.

Lemma create_zip_package_eq (w : world) (ms : list (string * data)) :
  not_a_directory (zip_filename_at (clock w)) (fs w) ->
  for_ files_to_include add_item
       (set_open_zip (Some (mkZip (zip_filename_at (clock w)) [])) (opened w)) =
    (set_open_zip (Some (mkZip (zip_filename_at (clock w)) ms)) (opened w), Ret tt) ->
  create_zip_package w = (zipped w ms, Ret (PStr (zip_filename_at (clock w)))).
Proof.
  intros Hfree Hfor. unfold create_zip_package, bind at 1, datetime_now.
  unfold bind at 1, print at 1. unfold bind at 1.
  pose proof (with_ZipFile_w_ok (zip_filename_at (clock w)) (for_ files_to_include add_item)
                (write (creating (zip_filename_at (clock w))) w) ms tt
                (zip_filename_plain _) Hfree Hfor) as Hwith.
  unfold creating in Hwith. cbn [clock write] in *. rewrite Hwith.
  unfold bind, print, ret, zipped, write, set_open_zip, set_fs, creating, created. simpl.
  rewrite <- app_assoc. reflexivity.
Qed.

Lemma create_zip_package_ok (w : world) :
  not_a_directory (zip_filename_at (clock w)) (fs w) ->
  exists ms, create_zip_package w = (zipped w ms, Ret (PStr (zip_filename_at (clock w)))).
Proof.
  intros Hfree.
  destruct (add_items_ok (opened w) (zip_filename_at (clock w)) files_to_include [])
    as [ms Hfor].
  exists ms. now apply create_zip_package_eq.
Qed.

Lemma stat_zipped (w : world) (ms : list (string * data)) :
  Fs.stat (fs (zipped w ms)) (Path.of_string (zip_filename_at (clock w))) = Some (File (Zip ms)).
Proof. rewrite zip_filename_plain, stat_top. simpl. now rewrite assoc_put_same. Qed.

(** C7, as amended.  In any world whose working directory holds the
    package directory and a regular file [f] among the named files, and in
    which the archive's name is not taken by a directory: the zip-package
    operation returns the archive's name, a regular file of that name is
    on disk afterwards, it is a ZIP archive that holds [f], and the name
    is [delta-optimizer-YYYYMMDD.zip], where the eight digits read back as
    the year, month and day of the clock.  (The clock is a [datetime]: its
    year is within 1..9999, its month within 1..12, its day within 1..31.) *)
Theorem archive_exists_with_date (w : world) (es : dir) (f : string) (d : data) :
  valid_date (clock w) ->
  assoc "delta_optimizer" (fs w) = Some (Dir es) ->
  In f named_files -> assoc f (fs w) = Some (File d) ->
  not_a_directory (zip_filename_at (clock w)) (fs w) ->
  exists w' ms yyyy mm dd,
    create_zip_package w = (w', Ret (PStr (zip_filename_at (clock w)))) /\
    Fs.stat (fs w') (Path.of_string (zip_filename_at (clock w))) = Some (File (Zip ms)) /\
    In (f, d) ms /\
    zip_filename_at (clock w) = "delta-optimizer-" ++ yyyy ++ mm ++ dd ++ ".zip" /\
    String.length yyyy = 4 /\ String.length mm = 2 /\ String.length dd = 2 /\
    Text.all_digits (yyyy ++ mm ++ dd) = true /\
    Text.decimal yyyy = year (clock w) /\
    Text.decimal mm = month (clock w) /\
    Text.decimal dd = day (clock w).
Proof.
  intros [Hy [Hm Hd]] _ Hf Hfile Hfree.
  destruct (add_items_keeps (opened w) (zip_filename_at (clock w)) f d files_to_include)
    as [ms [Hfor Hin]].
  - simpl. simpl in Hf. tauto.
  - cbn [fs opened set_fs write].
    rewrite stat_listed_put by (simpl; simpl in Hf; tauto).
    simpl in Hf.
    repeat (destruct Hf as [<-|Hf];
            [parse_literal_path; rewrite stat_top, Hfile; reflexivity |]).
    destruct Hf.
  - exists (zipped w ms), ms, (Text.zero_padded 4 (year (clock w))),
      (Text.zero_padded 2 (month (clock w))), (Text.zero_padded 2 (day (clock w))).
    split; [now apply create_zip_package_eq|].
    split; [apply stat_zipped|]. split; [exact Hin|].
    split; [apply zip_filename_digits|].
    rewrite !zero_padded_length, !all_digits_app, !zero_padded_digits.
    repeat split; apply zero_padded_exact; simpl; lia.
Qed.

Lemma archive_exists_with_date_witness :
  exists w' ms,
    create_zip_package (Sample.world_of Sample.project [] Sample.every_command_succeeds) =
      (w', Ret (PStr "delta-optimizer-20261104.zip")) /\
    Fs.stat (fs w') (Path.of_string "delta-optimizer-20261104.zip") = Some (File (Zip ms)) /\
    In ("setup.py", Raw "from setuptools import setup") ms.
Proof.
  destruct (archive_exists_with_date
              (Sample.world_of Sample.project [] Sample.every_command_succeeds)
              [ ("__init__.py", File (Raw "from .core import DeltaOptimizer"));
                ("core", Dir [("optimizer.py", File (Raw "class DeltaOptimizer: pass"))]) ]
              "setup.py" (Raw "from setuptools import setup"))
    as [w' [ms [yyyy [mm [dd [Hrun [Hstat [Hin _]]]]]]]].
  - unfold valid_date. simpl. lia.
  - reflexivity.
  - simpl. auto.
  - reflexivity.
  - exact I.
  - exists w', ms. split; [exact Hrun|]. split; [exact Hstat | exact Hin].
Defined.

(** C7 as stated fails: with the package directory and [setup.py] in
    place but a directory sitting under the archive's name, the operation
    ends in [IsADirectoryError] after its first message, and what is on
    disk under that name afterwards is still the directory. *)
Lemma no_archive_where_a_directory_has_its_name :
  assoc "delta_optimizer" Sample.project_name_taken =
    Some (Dir [("__init__.py", File (Raw "from .core import DeltaOptimizer"))]) /\
  assoc "setup.py" Sample.project_name_taken = Some (File (Raw "from setuptools import setup")) /\
  create_zip_package (Sample.world_of Sample.project_name_taken [] Sample.every_command_succeeds) =
    (write (creating "delta-optimizer-20261104.zip")
           (Sample.world_of Sample.project_name_taken [] Sample.every_command_succeeds),
     Raise (IsADirectoryError "delta-optimizer-20261104.zip")) /\
  Fs.stat Sample.project_name_taken (Path.of_string "delta-optimizer-20261104.zip") = Some (Dir []).
Proof. repeat split. Qed.

(** C10, as amended.  The loop of the zip-package operation skips every
    path that does not exist, silently: it comes to the same as the loop
    over the existing paths alone.  When none of the listed paths exists
    and the archive's name is not taken by a directory, the operation
    still creates (or overwrites) the archive, leaves it empty, prints its
    two usual messages and returns the archive's name. *)
Theorem missing_paths_are_skipped (w : world) :
  (forall items,
     for_ items add_item w = for_ (filter (present (fs w)) items) add_item w) /\
  ((forall item, In item files_to_include -> present (fs w) item = false) ->
   not_a_directory (zip_filename_at (clock w)) (fs w) ->
   create_zip_package w = (zipped w [], Ret (PStr (zip_filename_at (clock w))))).
Proof.
  split; [intros items; apply for_add_item_present|].
  intros Hnone Hfree. apply create_zip_package_eq; [exact Hfree|].
  rewrite for_add_item_present.
  rewrite filter_none; [reflexivity|].
  intros item Hin. unfold present. cbn [fs set_open_zip opened set_fs write].
  rewrite stat_listed_put by exact Hin. exact (Hnone item Hin).
Qed.

Lemma missing_paths_are_skipped_witness :
  create_zip_package
    (Sample.world_of [("notes.txt", File (Raw "todo"))] [] Sample.every_command_succeeds) =
    (mkWorld [("notes.txt", File (Raw "todo")); ("delta-optimizer-20261104.zip", File (Zip []))]
             []
             [creating "delta-optimizer-20261104.zip"; created "delta-optimizer-20261104.zip"]
             Sample.today [] Sample.every_command_succeeds None,
     Ret (PStr "delta-optimizer-20261104.zip")).
Proof.
  apply (proj2 (missing_paths_are_skipped
                  (Sample.world_of [("notes.txt", File (Raw "todo"))] []
                                   Sample.every_command_succeeds))).
  - intros item Hin. simpl in Hin.
    repeat (destruct Hin as [<-|Hin]; [reflexivity|]). destruct Hin.
  - exact I.
Defined.

(** C10 as stated fails: with none of the listed paths in place and a
    directory sitting under the archive's name, the operation reports an
    error ([IsADirectoryError]) and creates no archive. *)
Lemma no_empty_archive_where_a_directory_has_its_name :
  forallb (fun item => negb (present Sample.name_taken item)) files_to_include = true /\
  create_zip_package (Sample.world_of Sample.name_taken [] Sample.every_command_succeeds) =
    (write (creating "delta-optimizer-20261104.zip")
           (Sample.world_of Sample.name_taken [] Sample.every_command_succeeds),
     Raise (IsADirectoryError "delta-optimizer-20261104.zip")).
Proof. split; reflexivity. Qed.

(** ** The menu *)

Lemma loop_body_invalid (opts : menu) (w : world) (line : string) (rest : list string) :
  stdin w = line :: rest ->
  assoc (Text.strip line) opts = None ->
  loop_body opts w =
    (mkWorld (fs w) rest (printed w ++ menu_text opts ++ [Text.line invalid_option])%list
             (clock w) (spawned w) (shell w) (open_zip w),
     Ret opts).
Proof.
  intros Hin Hno. unfold loop_body, bind at 1, print at 1. unfold bind at 1. rewrite for_print.
  unfold bind at 1, input. simpl. rewrite Hin. unfold dict_contains. rewrite Hno.
  unfold bind, print, ret, menu_text, printing, write, set_stdin. simpl.
  rewrite <- ?app_assoc. simpl. rewrite <- ?app_assoc. reflexivity.
Qed.

(** C4.  For every line whose key -- the line stripped of surrounding
    whitespace, which is what the dispatcher looks up -- is none of [1]
    to [8]: no entry is found for it, so no operation is invoked; the turn
    prints the menu, the prompt and the invalid-option message and changes
    nothing else (working directory and spawned commands are as before);
    the mapping is the same afterwards; and the loop goes on to its next
    turn from there. *)
Theorem invalid_choice_reprompts (w : world) (line : string) (rest : list string)
    (turns : nat) :
  stdin w = line :: rest ->
  ~ In (Text.strip line) ["1"; "2"; "3"; "4"; "5"; "6"; "7"; "8"] ->
  assoc (Text.strip line) options = None /\
  loop_body options w =
    (mkWorld (fs w) rest (printed w ++ menu_text options ++ [Text.line invalid_option])%list
             (clock w) (spawned w) (shell w) (open_zip w),
     Ret options) /\
  while_true (S turns) options w =
    while_true turns options
      (mkWorld (fs w) rest (printed w ++ menu_text options ++ [Text.line invalid_option])%list
               (clock w) (spawned w) (shell w) (open_zip w)).
Proof.
  intros Hin Hkey.
  assert (Hno : assoc (Text.strip line) options = None) by (apply assoc_absent; exact Hkey).
  pose proof (loop_body_invalid options w line rest Hin Hno) as Hbody.
  split; [exact Hno|]. split; [exact Hbody|].
  cbn [while_true]. unfold bind. now rewrite Hbody.
Qed.

Lemma invalid_choice_reprompts_witness :
  loop_body options (Sample.world_of Sample.project [" 9 "; "8"] Sample.every_command_succeeds) =
    (mkWorld Sample.project ["8"] (menu_text options ++ [Text.line invalid_option])%list
             Sample.today [] Sample.every_command_succeeds None,
     Ret options) /\
  snd (while_true 2 options
         (Sample.world_of Sample.project [" 9 "; "8"] Sample.every_command_succeeds)) =
    Raise (SystemExit None).
Proof.
  destruct (invalid_choice_reprompts
              (Sample.world_of Sample.project [" 9 "; "8"] Sample.every_command_succeeds)
              " 9 " ["8"] 1 eq_refl) as [_ [Hbody Hloop]].
  - simpl. intuition discriminate.
  - split; [exact Hbody|]. rewrite Hloop. reflexivity.
Defined.

Lemma loop_body_keeps_options (opts : menu) (w : world) :
  match snd (loop_body opts w) with
  | Ret opts' => opts' = opts
  | Raise _ => True
  end.
Proof.
  unfold loop_body, bind at 1, print at 1. unfold bind at 1. rewrite for_print.
  unfold bind at 1.
  destruct (input _ _) as [w1 [line|e]]; [|exact I].
  destruct (dict_contains opts (Text.strip line)).
  - unfold bind at 1. destruct (dict_getitem _ _ w1) as [w2 [[description function]|e]]; [|exact I].
    unfold bind, print, ret. destruct (function _) as [w3 [v|e]]; simpl; auto.
  - reflexivity.
Qed.

Lemma while_true_keeps_options (turns : nat) (opts : menu) (w : world) :
  match snd (while_true turns opts w) with
  | Ret opts' => opts' = opts
  | Raise _ => True
  end.
Proof.
  revert w. induction turns as [|n IH]; intros w; simpl; [reflexivity|].
  unfold bind. pose proof (loop_body_keeps_options opts w) as H.
  destruct (loop_body opts w) as [w1 [o|e]]; simpl in *; [|exact I].
  subst o. apply IH.
Qed.

(** C8.  The mapping [main] builds before its loop has the keys [1] to
    [8], each once.  [main] prints its banner and enters the loop with
    that mapping; after any number of turns of the loop, from any world
    and whatever the operations run in between did, the mapping the loop
    holds is that same mapping (the operations act on the world only: the
    mapping is not within their reach).  And each turn displays the
    entries in the order they were registered. *)
Theorem options_never_change :
  dict_keys options = ["1"; "2"; "3"; "4"; "5"; "6"; "7"; "8"] /\
  NoDup (dict_keys options) /\
  (forall turns w,
     main turns w =
       while_true turns options
         (printing [Text.line (Text.times "=" 50);
                    Text.line "DeltaOptimizer Build and Installation System";
                    Text.line (Text.times "=" 50)] w)) /\
  (forall turns w,
     match snd (while_true turns options w) with
     | Ret options' => options' = options
     | Raise _ => True
     end) /\
  (forall w,
     for_ options (fun e => print (show_entry e)) w =
       (printing [ Text.line "  1. Clean build files";
                   Text.line "  2. Build package";
                   Text.line "  3. Install locally";
                   Text.line "  4. Run tests";
                   Text.line "  5. Create ZIP package";
                   Text.line "  6. Upload to PyPI";
                   Text.line "  7. Full pipeline (clean+build+install+test)";
                   Text.line "  8. Exit" ] w,
        Ret tt)).
Proof.
  split; [reflexivity|]. split; [|split; [|split]].
  - repeat constructor; simpl; intuition discriminate.
  - intros turns w. unfold main, bind, print. rewrite <- !printing_write, printing_nil.
    reflexivity.
  - intros; apply while_true_keeps_options.
  - intros w. rewrite for_print. reflexivity.
Qed.

(** ** What the operations hand back *)




(** * Further properties *)

(** ** One turn of the menu *)

Lemma loop_body_chosen (opts : menu) (w : world) (line : string) (rest : list string)
    (description : string) (function : M pyval) :
  stdin w = line :: rest ->
  assoc (Text.strip line) opts = Some (description, function) ->
  loop_body opts w =
    (let '(w', r) := function (chosen w rest opts description) in
     (w', match r with
          | Ret _ => Ret opts
          | Raise e => Raise e
          end)).
Proof.
  intros Hin Hfound. unfold loop_body. rewrite print_then, for_print_then.
  rewrite (input_then _ line rest) by exact Hin.
  fold menu_heading choice_prompt. rewrite menu_shown.
  unfold dict_contains, dict_getitem. rewrite Hfound.
  unfold bind at 1, ret at 1. rewrite !print_then.
  rewrite write_printing, !printing_write. fold (banner description).
  rewrite printing_set_stdin, printing_printing, set_stdin_printing.
  fold (chosen w rest opts description).
  unfold bind, ret. destruct (function _) as [w' [v|e]]; reflexivity.
Qed.

Lemma loop_body_eof (opts : menu) (w : world) :
  stdin w = [] -> loop_body opts w = (printing (menu_text opts) w, Raise EOFError).
Proof.
  intros Hin. unfold loop_body. rewrite print_then, for_print_then.
  rewrite input_at_end by exact Hin.
  fold menu_heading choice_prompt. rewrite menu_shown. reflexivity.
Qed.

Lemma registered_key (key : string) (entry : string * M pyval) :
  assoc key options = Some entry -> In key ["1"; "2"; "3"; "4"; "5"; "6"; "7"; "8"].
Proof.
  intros H.
  destruct (in_dec string_dec key ["1"; "2"; "3"; "4"; "5"; "6"; "7"; "8"]) as [Hin|Hout];
    [exact Hin|].
  rewrite (assoc_absent key options Hout) in H. discriminate.
Qed.

(** X1.  When the line read, stripped, is a registered key, the turn runs
    the operation bound to that key, once and no other, from the world in
    which the menu and the banner with the entry's label were printed.
    What the operation returns is dropped and the loop goes on from the
    world the operation left; an exception of the operation is not
    caught: it ends the loop there. *)
Theorem chosen_operation_runs (w : world) (line : string) (rest : list string)
    (description : string) (function : M pyval) (turns : nat) :
  stdin w = line :: rest ->
  assoc (Text.strip line) options = Some (description, function) ->
  while_true (S turns) options w =
    (let '(w', r) := function (chosen w rest options description) in
     match r with
     | Ret _ => while_true turns options w'
     | Raise e => (w', Raise e)
     end).
Proof.
  intros Hin Hfound. cbn [while_true]. unfold bind.
  rewrite (loop_body_chosen options w line rest description function Hin Hfound).
  destruct (function _) as [w' [v|e]]; reflexivity.
Qed.

Lemma chosen_operation_runs_witness :
  while_true 1 options (Sample.world_of Sample.project ["3"] Sample.every_command_fails) =
    (after_run "pip install ."
       (chosen (Sample.world_of Sample.project ["3"] Sample.every_command_fails) [] options
               "Install locally")
       Sample.project
       (failed "Installing package locally" (mkCompleted 1 EmptyString "error: invalid command")),
     Ret options).
Proof.
  rewrite (chosen_operation_runs
             (Sample.world_of Sample.project ["3"] Sample.every_command_fails)
             "3" [] "Install locally" install_locally 0 eq_refl eq_refl).
  reflexivity.
Defined.

(** *** Stripping the choice *)

Lemma lstrip_spaces (l s : string) : all_space l = true -> Text.lstrip (l ++ s) = Text.lstrip s.
Proof.
  induction l as [|c l IH]; simpl; intros H; [reflexivity|].
  apply andb_prop in H as [Hc Hl]. rewrite Hc. now apply IH.
Qed.

Lemma rstrip_all_space (r : string) : all_space r = true -> Text.rstrip r = EmptyString.
Proof.
  induction r as [|c r IH]; simpl; intros H; [reflexivity|].
  apply andb_prop in H as [Hc Hr]. now rewrite (IH Hr), Hc.
Qed.

Lemma rstrip_spaces (s r : string) : all_space r = true -> Text.rstrip (s ++ r) = Text.rstrip s.
Proof.
  intros H. induction s as [|c s IH]; simpl.
  - now apply rstrip_all_space.
  - now rewrite IH.
Qed.

Lemma strip_padded (l r : string) (c : ascii) (k : string) :
  all_space l = true -> all_space r = true ->
  Text.isspace c = false -> Text.rstrip (String c k) = String c k ->
  Text.strip (l ++ String c k ++ r) = String c k.
Proof.
  intros Hl Hr Hc Hk. unfold Text.strip. rewrite lstrip_spaces by exact Hl.
  change (String c k ++ r) with (String c (k ++ r)). cbn [Text.lstrip]. rewrite Hc.
  change (String c (k ++ r)) with (String c k ++ r). now rewrite rstrip_spaces.
Qed.

(** X2.  A registered key typed with any whitespace before and after it
    (blanks, tabs and the like) is read as that key: the line strips to
    the key, and the turn runs the operation bound to it exactly as for
    the bare key. *)
Theorem padded_key_is_accepted (w : world) (l key r : string) (rest : list string)
    (description : string) (function : M pyval) :
  stdin w = (l ++ key ++ r) :: rest ->
  all_space l = true -> all_space r = true ->
  assoc key options = Some (description, function) ->
  Text.strip (l ++ key ++ r) = key /\
  loop_body options w =
    (let '(w', r) := function (chosen w rest options description) in
     (w', match r with
          | Ret _ => Ret options
          | Raise e => Raise e
          end)).
Proof.
  intros Hin Hl Hr Hfound.
  assert (Hs : Text.strip (l ++ key ++ r) = key).
  { pose proof (registered_key key _ Hfound) as Hkey. simpl in Hkey.
    repeat (destruct Hkey as [<-|Hkey]; [apply strip_padded; auto|]). destruct Hkey. }
  split; [exact Hs|].
  apply (loop_body_chosen options w (l ++ key ++ r) rest description function Hin).
  now rewrite Hs.
Qed.

Lemma padded_key_is_accepted_witness :
  Text.strip ("  " ++ "8" ++ " ") = "8" /\
  loop_body options (Sample.world_of [] ["  8 "] Sample.every_command_succeeds) =
    (chosen (Sample.world_of [] ["  8 "] Sample.every_command_succeeds) [] options "Exit",
     Raise (SystemExit None)).
Proof.
  exact (padded_key_is_accepted (Sample.world_of [] ["  8 "] Sample.every_command_succeeds)
           "  " "8" " " [] "Exit" sys_exit eq_refl eq_refl eq_refl eq_refl).
Defined.

(** ** How the menu ends *)

(** X3.  Choosing key 8 ends the loop at once, however many turns it had
    ahead: the menu and the banner of the exit entry are printed, and the
    loop ends in [SystemExit] with no exit code (a successful exit), the
    rest of the input unread. *)
Theorem exit_ends_the_loop (w : world) (line : string) (rest : list string) (turns : nat) :
  stdin w = line :: rest ->
  Text.strip line = "8" ->
  while_true (S turns) options w = (chosen w rest options "Exit", Raise (SystemExit None)).
Proof.
  intros Hin Hkey. cbn [while_true]. unfold bind.
  rewrite (loop_body_chosen options w line rest "Exit" sys_exit Hin) by now rewrite Hkey.
  reflexivity.
Qed.

Lemma exit_ends_the_loop_witness :
  while_true 7 options (Sample.world_of Sample.project ["8"; "1"] Sample.every_command_succeeds) =
    (chosen (Sample.world_of Sample.project ["8"; "1"] Sample.every_command_succeeds) ["1"]
            options "Exit",
     Raise (SystemExit None)).
Proof.
  exact (exit_ends_the_loop
           (Sample.world_of Sample.project ["8"; "1"] Sample.every_command_succeeds)
           "8" ["1"] 6 eq_refl eq_refl).
Defined.

(** X4.  When the input is at its end, the turn prints the menu and the
    prompt and the loop ends in [EOFError]: the end of the input is not
    handled, whatever the mapping. *)
Theorem end_of_input_ends_the_loop (opts : menu) (w : world) (turns : nat) :
  stdin w = [] ->
  while_true (S turns) opts w = (printing (menu_text opts) w, Raise EOFError).
Proof.
  intros Hin. cbn [while_true]. unfold bind at 1. now rewrite (loop_body_eof opts w Hin).
Qed.

Lemma end_of_input_ends_the_loop_witness :
  while_true 2 options (Sample.world_of Sample.project [] Sample.every_command_succeeds) =
    (printing (menu_text options)
              (Sample.world_of Sample.project [] Sample.every_command_succeeds),
     Raise EOFError).
Proof.
  exact (end_of_input_ends_the_loop options
           (Sample.world_of Sample.project [] Sample.every_command_succeeds) 1 eq_refl).
Defined.

(** X6.  An exception in clean takes the menu down: when key 1 is chosen
    where [build] is a regular file, the loop ends in
    [NotADirectoryError] right after the banner, with the working
    directory untouched. *)
Theorem failed_clean_ends_the_loop (w : world) (line : string) (rest : list string)
    (d : data) (turns : nat) :
  stdin w = line :: rest ->
  Text.strip line = "1" ->
  assoc "build" (fs w) = Some (File d) ->
  while_true (S turns) options w =
    (chosen w rest options "Clean build files", Raise (NotADirectoryError "build")).
Proof.
  intros Hin Hkey Hbuild. cbn [while_true]. unfold bind.
  rewrite (loop_body_chosen options w line rest "Clean build files" clean_build_files Hin)
    by now rewrite Hkey.
  unfold clean_build_files, build_dirs. cbn [for_]. unfold bind at 1 2.
  rewrite remove_if_exists_cases by reflexivity. cbn [fs chosen]. rewrite Hbuild. reflexivity.
Qed.

Lemma failed_clean_ends_the_loop_witness :
  while_true 3 options
    (Sample.world_of Sample.build_is_a_script ["1"; "8"] Sample.every_command_succeeds) =
    (chosen (Sample.world_of Sample.build_is_a_script ["1"; "8"] Sample.every_command_succeeds)
            ["8"] options "Clean build files",
     Raise (NotADirectoryError "build")).
Proof.
  exact (failed_clean_ends_the_loop
           (Sample.world_of Sample.build_is_a_script ["1"; "8"] Sample.every_command_succeeds)
           "1" ["8"] (Raw "#!/bin/sh") 2 eq_refl eq_refl eq_refl).
Defined.

(** ** The input is only ever consumed *)

Lemma run_command_stdin (command description : string) (w : world) :
  stdin (fst (run_command command description w)) = stdin w.
Proof.
  rewrite run_command_eq. destruct (shell w (spawned w) command (fs w)) as [r d].
  destruct (returncode r =? 0)%Z; reflexivity.
Qed.

Lemma run_each_stdin (commands : list string) (description : string) (w : world) :
  stdin (fst (run_each commands description w)) = stdin w.
Proof.
  revert w. induction commands as [|cmd rest IH]; intros w; [reflexivity|].
  cbn [run_each]. unfold bind. pose proof (run_command_stdin cmd description w) as H.
  destruct (run_command cmd description w) as [w1 [[]|e]]; simpl in *.
  - now rewrite IH.
  - exact H.
  - exact H.
Qed.

Lemma remove_if_exists_stdin (name : string) (w : world) :
  stdin (fst (remove_if_exists name w)) = stdin w.
Proof.
  unfold remove_if_exists, bind, os_path_exists, shutil_rmtree, print, ret.
  destruct (Fs.stat (fs w) (Path.of_string name)) as [[d|es]|] eqn:E; simpl; rewrite ?E;
    try reflexivity.
  destruct (Fs.remove_tree _ _); reflexivity.
Qed.

Lemma clean_stdin (w : world) : stdin (fst (clean_build_files w)) = stdin w.
Proof.
  unfold clean_build_files, bind, ret.
  pose proof (for_preserves (fun w' => stdin w' = stdin w) remove_if_exists build_dirs) as H.
  specialize (H (fun x w0 Hw0 => eq_trans (remove_if_exists_stdin x w0) Hw0) w eq_refl).
  cbv beta in H.
  destruct (for_ build_dirs remove_if_exists w) as [w1 [[]|e]]; exact H.
Qed.

Lemma full_pipeline_clean (w : world) : full_pipeline w = clean_build_files w.
Proof.
  unfold full_pipeline, py_and at 1, bind.
  destruct (clean_build_files w) as [w' [v|e]] eqn:Hc; [|reflexivity].
  now rewrite (clean_value _ _ _ Hc).
Qed.

Lemma with_ZipFile_w_directory {A : Type} (name : string) (body : M A) (w : world) (es : dir) :
  Path.of_string name = mkPath [name] false ->
  assoc name (fs w) = Some (Dir es) ->
  with_ZipFile_w name body w = (w, Raise (IsADirectoryError name)).
Proof.
  intros Hp Hdir. unfold with_ZipFile_w. rewrite Hp. unfold Fs.stat. simpl. now rewrite Hdir.
Qed.

Lemma create_zip_package_directory (w : world) (es : dir) :
  assoc (zip_filename_at (clock w)) (fs w) = Some (Dir es) ->
  create_zip_package w =
    (write (creating (zip_filename_at (clock w))) w,
     Raise (IsADirectoryError (zip_filename_at (clock w)))).
Proof.
  intros Hdir. unfold create_zip_package, bind at 1, datetime_now.
  unfold bind at 1, print at 1. unfold bind at 1.
  pose proof (with_ZipFile_w_directory (zip_filename_at (clock w)) (for_ files_to_include add_item)
                (write (creating (zip_filename_at (clock w))) w) es
                (zip_filename_plain _) Hdir) as Hwith.
  unfold creating in Hwith. cbn [clock write] in *. now rewrite Hwith.
Qed.

(** The two ways [create_zip_package] can end. *)
Lemma create_zip_package_cases (w : world) :
  (exists es, assoc (zip_filename_at (clock w)) (fs w) = Some (Dir es) /\
              create_zip_package w =
                (write (creating (zip_filename_at (clock w))) w,
                 Raise (IsADirectoryError (zip_filename_at (clock w))))) \/
  (exists ms, create_zip_package w = (zipped w ms, Ret (PStr (zip_filename_at (clock w))))).
Proof.
  destruct (assoc (zip_filename_at (clock w)) (fs w)) as [[d|es]|] eqn:E.
  - right. apply create_zip_package_ok. unfold not_a_directory. now rewrite E.
  - left. exists es. split; [reflexivity|]. now apply (create_zip_package_directory w es).
  - right. apply create_zip_package_ok. unfold not_a_directory. now rewrite E.
Qed.

Lemma create_zip_package_stdin (w : world) : stdin (fst (create_zip_package w)) = stdin w.
Proof.
  destruct (create_zip_package_cases w) as [[es [_ ->]]|[ms ->]]; reflexivity.
Qed.

Lemma upload_eof (w : world) :
  stdin w = [] -> upload_to_pypi w = (printing upload_notes w, Raise EOFError).
Proof.
  intros Hin. unfold upload_to_pypi. rewrite !print_then.
  rewrite input_at_end by (rewrite !stdin_write; exact Hin).
  rewrite write_printing, !printing_write. reflexivity.
Qed.

Lemma upload_stdin (w : world) :
  List.length (stdin (fst (upload_to_pypi w))) <= List.length (stdin w).
Proof.
  destruct (stdin w) as [|response rest] eqn:Hin.
  - rewrite (upload_eof w Hin). simpl. rewrite Hin. reflexivity.
  - rewrite (upload_eq w response rest Hin).
    destruct (negb (Text.lower response =? "y")); simpl; [lia|].
    unfold bind.
    pose proof (run_command_stdin "twine upload dist/*" "Uploading to PyPI" (asked w rest)) as H.
    destruct (run_command _ _ _) as [w1 [b|e]]; simpl in *; rewrite H; lia.
Qed.

Lemma install_stdin (w : world) : stdin (fst (install_locally w)) = stdin w.
Proof.
  unfold install_locally, bind.
  pose proof (run_command_stdin "pip install ." "Installing package locally" w) as H.
  destruct (run_command _ _ _) as [w1 [b|e]]; exact H.
Qed.

(** No registered operation leaves more input than it found. *)
Lemma options_consume (key description : string) (function : M pyval) (w : world) :
  assoc key options = Some (description, function) ->
  List.length (stdin (fst (function w))) <= List.length (stdin w).
Proof.
  intros Hfound. pose proof (registered_key key _ Hfound) as Hkey. simpl in Hkey.
  repeat (destruct Hkey as [<-|Hkey];
          [simpl in Hfound; injection Hfound as _ <-|]); try destruct Hkey.
  - now rewrite clean_stdin.
  - unfold build_package. now rewrite run_each_stdin.
  - now rewrite install_stdin.
  - unfold run_tests. now rewrite run_each_stdin.
  - now rewrite create_zip_package_stdin.
  - apply upload_stdin.
  - now rewrite full_pipeline_clean, clean_stdin.
  - reflexivity.
Qed.

Lemma while_true_ends (turns : nat) (w : world) :
  List.length (stdin w) < turns ->
  exists w' e, while_true turns options w = (w', Raise e).
Proof.
  revert w. induction turns as [|n IH]; intros w Hlen; [lia|].
  cbn [while_true]. unfold bind.
  destruct (stdin w) as [|line rest] eqn:Hin.
  - rewrite (loop_body_eof options w Hin). do 2 eexists. reflexivity.
  - simpl in Hlen.
    destruct (assoc (Text.strip line) options) as [[description function]|] eqn:Hfound.
    + rewrite (loop_body_chosen options w line rest description function Hin Hfound).
      pose proof (options_consume _ _ _ (chosen w rest options description) Hfound) as Hc.
      destruct (function _) as [w1 [v|e]]; simpl in Hc.
      * apply IH. lia.
      * do 2 eexists. reflexivity.
    + rewrite (loop_body_invalid options w line rest Hin Hfound). apply IH. simpl. lia.
Qed.

(** X5.  [main] never outlasts its input and never comes to a normal end:
    every turn reads at least one line and no operation puts input back,
    so with more turns than there are lines left the loop has ended, and
    it has ended with an exception. *)
Theorem main_ends_with_its_input (turns : nat) (w : world) :
  List.length (stdin w) < turns ->
  exists w' e, main turns w = (w', Raise e).
Proof.
  intros Hlen. unfold main, bind, print. apply while_true_ends. exact Hlen.
Qed.

Lemma main_ends_with_its_input_witness :
  exists w' e,
    main 3 (Sample.world_of Sample.project ["9"; "2"] Sample.every_command_succeeds) =
      (w', Raise e).
Proof.
  apply (main_ends_with_its_input 3
           (Sample.world_of Sample.project ["9"; "2"] Sample.every_command_succeeds)).
  simpl. lia.
Defined.

(** ** The operations that run commands *)

Lemma run_each_cons (cmd : string) (rest : list string) (description : string) (w : world)
    (r : completed) (d : dir) :
  shell w (spawned w) cmd (fs w) = (r, d) ->
  run_each (cmd :: rest) description w =
    if (returncode r =? 0)%Z
    then run_each rest description (after_run cmd w d (succeeded description))
    else (after_run cmd w d (failed description r), Ret (PBool false)).
Proof.
  intros Hsh. cbn [run_each]. unfold bind. rewrite run_command_eq, Hsh.
  destruct (returncode r =? 0)%Z; reflexivity.
Qed.

(** X7.  Build runs [python setup.py sdist bdist_wheel] and then, only
    when that exited zero, [python -m build] (in the working directory
    the first command left): a failure of the first command returns False
    with the second never spawned, and otherwise the value is True
    exactly when the second command exits zero too. *)
Theorem build_package_result (w : world) (r1 r2 : completed) (d1 d2 : dir) :
  shell w (spawned w) "python setup.py sdist bdist_wheel" (fs w) = (r1, d1) ->
  shell w (spawned w ++ ["python setup.py sdist bdist_wheel"])%list "python -m build" d1
    = (r2, d2) ->
  build_package w =
    if (returncode r1 =? 0)%Z
    then
      (after_run "python -m build"
         (after_run "python setup.py sdist bdist_wheel" w d1 (succeeded "Building package")) d2
         (if (returncode r2 =? 0)%Z then succeeded "Building package"
          else failed "Building package" r2),
       Ret (PBool (returncode r2 =? 0)%Z))
    else
      (after_run "python setup.py sdist bdist_wheel" w d1 (failed "Building package" r1),
       Ret (PBool false)).
Proof.
  intros H1 H2. unfold build_package.
  rewrite (run_each_cons _ _ _ w r1 d1 H1).
  destruct (returncode r1 =? 0)%Z; [|reflexivity].
  rewrite (run_each_cons "python -m build" [] "Building package"
             (after_run "python setup.py sdist bdist_wheel" w d1 (succeeded "Building package"))
             r2 d2 H2).
  destruct (returncode r2 =? 0)%Z; reflexivity.
Qed.

Lemma build_package_result_witness :
  build_package (Sample.world_of Sample.project [] Sample.every_command_fails) =
    (after_run "python setup.py sdist bdist_wheel"
       (Sample.world_of Sample.project [] Sample.every_command_fails) Sample.project
       (failed "Building package" (mkCompleted 1 EmptyString "error: invalid command")),
     Ret (PBool false)) /\
  spawned (fst (build_package (Sample.world_of Sample.project [] Sample.every_command_succeeds))) =
    ["python setup.py sdist bdist_wheel"; "python -m build"].
Proof.
  split.
  - exact (build_package_result (Sample.world_of Sample.project [] Sample.every_command_fails)
             (mkCompleted 1 EmptyString "error: invalid command")
             (mkCompleted 1 EmptyString "error: invalid command")
             Sample.project Sample.project eq_refl eq_refl).
  - rewrite (build_package_result
               (Sample.world_of Sample.project [] Sample.every_command_succeeds)
               (mkCompleted 0 "ok" EmptyString) (mkCompleted 0 "ok" EmptyString)
               Sample.project Sample.project eq_refl eq_refl).
    reflexivity.
Defined.



(** X9.  Once an answer is read, upload returns True exactly when the
    answer lowercases to [y] and twine exits zero. *)
Theorem upload_result (w : world) (response : string) (rest : list string)
    (r : completed) (d : dir) :
  stdin w = response :: rest ->
  shell w (spawned w) "twine upload dist/*" (fs w) = (r, d) ->
  snd (upload_to_pypi w) =
    Ret (PBool ((Text.lower response =? "y") && (returncode r =? 0)%Z)).
Proof.
  intros Hin Hsh. rewrite (upload_eq w response rest Hin).
  destruct (Text.lower response =? "y"); [|reflexivity]. simpl.
  unfold bind. rewrite run_command_eq. cbn [asked shell spawned fs]. rewrite Hsh.
  destruct (returncode r =? 0)%Z; reflexivity.
Qed.

Lemma upload_result_witness :
  snd (upload_to_pypi (Sample.world_of Sample.project ["Y"] Sample.every_command_fails)) =
    Ret (PBool false) /\
  snd (upload_to_pypi (Sample.world_of Sample.project ["y"] Sample.every_command_succeeds)) =
    Ret (PBool true).
Proof.
  split.
  - exact (upload_result (Sample.world_of Sample.project ["Y"] Sample.every_command_fails)
             "Y" [] (mkCompleted 1 EmptyString "error: invalid command") Sample.project
             eq_refl eq_refl).
  - exact (upload_result (Sample.world_of Sample.project ["y"] Sample.every_command_succeeds)
             "y" [] (mkCompleted 0 "ok" EmptyString) Sample.project eq_refl eq_refl).
Defined.

(** ** More on clean *)

Lemma for_preserves_in {A : Type} (P : world -> Prop) (body : A -> M unit) (xs : list A) :
  (forall x, In x xs -> forall w, P w -> P (fst (body x w))) ->
  forall w, P w -> P (fst (for_ xs body w)).
Proof.
  induction xs as [|x xs IH]; intros Hbody w Hw; simpl; [exact Hw|].
  unfold bind. pose proof (Hbody x (or_introl eq_refl) w Hw) as Hx.
  destruct (body x w) as [w' [[]|e]]; simpl in *.
  - apply IH; [|exact Hx]. intros y Hy. apply Hbody. now right.
  - exact Hx.
Qed.

Lemma remove_if_exists_frame (dir_name name : string) (w : world) :
  Path.of_string dir_name = mkPath [dir_name] false ->
  name <> dir_name ->
  assoc name (fs (fst (remove_if_exists dir_name w))) = assoc name (fs w).
Proof.
  intros Hp Hne. rewrite remove_if_exists_cases by exact Hp.
  destruct (assoc dir_name (fs w)) as [[d|es]|]; simpl; try reflexivity.
  now apply assoc_remove_other.
Qed.

(** X10.  Clean touches nothing but its three names: whatever the working
    directory holds under any other name is there afterwards, unchanged,
    also when clean ended in an exception; and clean spawns no command
    and reads no input. *)
Theorem clean_touches_nothing_else (w : world) (name : string) :
  ~ In name build_dirs ->
  assoc name (fs (fst (clean_build_files w))) = assoc name (fs w) /\
  spawned (fst (clean_build_files w)) = spawned w /\
  stdin (fst (clean_build_files w)) = stdin w.
Proof.
  intros Hout. split; [|split; [apply clean_spawned | apply clean_stdin]].
  unfold clean_build_files, bind, ret.
  assert (H : assoc name (fs (fst (for_ build_dirs remove_if_exists w))) = assoc name (fs w)).
  { apply (for_preserves_in (fun w' => assoc name (fs w') = assoc name (fs w)));
      [|reflexivity].
    intros dir_name Hin w0 Hw0. rewrite <- Hw0. simpl in Hin.
    destruct Hin as [<-|[<-|[<-|[]]]]; apply remove_if_exists_frame; try reflexivity;
      intros ->; apply Hout; simpl; auto. }
  destruct (for_ build_dirs remove_if_exists w) as [w1 [[]|e]]; exact H.
Qed.

Lemma clean_touches_nothing_else_witness :
  assoc "setup.py"
    (fs (fst (clean_build_files
                (Sample.world_of Sample.build_is_a_script [] Sample.every_command_succeeds)))) =
    Some (File (Raw "from setuptools import setup")) /\
  assoc "delta_optimizer"
    (fs (fst (clean_build_files
                (Sample.world_of Sample.project [] Sample.every_command_succeeds)))) =
    assoc "delta_optimizer" Sample.project.
Proof.
  split.
  - apply (clean_touches_nothing_else
             (Sample.world_of Sample.build_is_a_script [] Sample.every_command_succeeds)
             "setup.py").
    intros [H|[H|[H|[]]]]; discriminate H.
  - apply (clean_touches_nothing_else
             (Sample.world_of Sample.project [] Sample.every_command_succeeds)
             "delta_optimizer").
    intros [H|[H|[H|[]]]]; discriminate H.
Defined.

(** X11.  Clean does not undo what it did when it fails later: where
    [build] is a directory and [dist] a regular file, [build] is removed
    and reported, and then clean ends in [NotADirectoryError] for [dist]. *)
Theorem clean_stops_half_way (w : world) (es : dir) (d : data) :
  assoc "build" (fs w) = Some (Dir es) ->
  assoc "dist" (fs w) = Some (File d) ->
  clean_build_files w =
    (write (removed "build") (set_fs (Fs.remove "build" (fs w)) w),
     Raise (NotADirectoryError "dist")).
Proof.
  intros Hbuild Hdist. unfold clean_build_files, build_dirs. cbn [for_]. unfold bind at 1 2.
  rewrite remove_if_exists_cases by reflexivity. rewrite Hbuild.
  unfold bind at 1. rewrite remove_if_exists_cases by reflexivity.
  cbn [fs write set_fs]. rewrite assoc_remove_other by discriminate. rewrite Hdist.
  reflexivity.
Qed.

Lemma clean_stops_half_way_witness :
  clean_build_files (Sample.world_of dist_is_a_file [] Sample.every_command_succeeds) =
    (mkWorld [("dist", File (Raw "release notes"))] [] [removed "build"] Sample.today []
             Sample.every_command_succeeds None,
     Raise (NotADirectoryError "dist")).
Proof.
  exact (clean_stops_half_way (Sample.world_of dist_is_a_file [] Sample.every_command_succeeds)
           [("lib", Dir [])] (Raw "release notes") eq_refl eq_refl).
Defined.

Lemma present_plain (d : dir) (name : string) :
  Path.of_string name = mkPath [name] false ->
  present d name = match assoc name d with Some _ => true | None => false end.
Proof. intros Hp. unfold present. rewrite Hp, stat_top. now destruct (assoc name d) as [[]|]. Qed.

Lemma remove_if_exists_reports (name : string) (w : world) :
  Path.of_string name = mkPath [name] false -> absent_or_directory name (fs w) ->
  remove_if_exists name w =
    (mkWorld (Fs.remove name (fs w)) (stdin w)
             (printed w ++ (if present (fs w) name then [removed name] else []))%list
             (clock w) (spawned w) (shell w) (open_zip w),
     Ret tt).
Proof.
  intros Hp Hn. rewrite remove_if_exists_cases by exact Hp. rewrite (present_plain _ _ Hp).
  unfold absent_or_directory in Hn.
  destruct (assoc name (fs w)) as [[d|es]|] eqn:E; [contradiction| |].
  - reflexivity.
  - rewrite (remove_absent _ _ E), app_nil_r. now destruct w.
Qed.

Lemma present_remove_other (d : dir) (k name : string) :
  Path.of_string name = mkPath [name] false -> name <> k ->
  present (Fs.remove k d) name = present d name.
Proof. intros Hp Hne. rewrite !(present_plain _ _ Hp). now rewrite assoc_remove_other. Qed.

(** X12.  Where each of the three names is absent or a directory, clean
    prints one line for each directory it removed, in the order [build],
    [dist], [delta_optimizer.egg-info], and nothing for a name that was
    not there; it leaves the working directory without the three names
    and changes nothing else in the world. *)
Theorem clean_reports_what_it_removed (w : world) :
  (forall name, In name build_dirs -> absent_or_directory name (fs w)) ->
  clean_build_files w =
    (mkWorld (cleaned (fs w)) (stdin w)
             (printed w ++ map removed (filter (present (fs w)) build_dirs))%list
             (clock w) (spawned w) (shell w) (open_zip w),
     Ret PNone).
Proof.
  intros H. unfold clean_build_files, build_dirs. cbn [for_]. unfold bind at 1 2.
  rewrite (remove_if_exists_reports "build" w eq_refl (H _ (or_introl eq_refl))).
  unfold bind at 1. rewrite (remove_if_exists_reports "dist" _ eq_refl)
    by (apply absent_or_directory_remove, H; simpl; auto).
  unfold bind at 1. rewrite (remove_if_exists_reports "delta_optimizer.egg-info" _ eq_refl)
    by (do 2 apply absent_or_directory_remove; apply H; simpl; auto).
  cbn [fs printed stdin clock spawned shell open_zip]. unfold bind, ret. cbn [for_ ret].
  rewrite !present_remove_other by (reflexivity || discriminate).
  unfold cleaned. cbn [filter map].
  destruct (present (fs w) "build"), (present (fs w) "dist"),
    (present (fs w) "delta_optimizer.egg-info"); cbn [map app];
    rewrite <- ?app_assoc, ?app_nil_r; reflexivity.
Qed.

Lemma clean_reports_what_it_removed_witness :
  clean_build_files (Sample.world_of Sample.project [] Sample.every_command_succeeds) =
    (mkWorld (cleaned Sample.project) [] [removed "build"] Sample.today []
             Sample.every_command_succeeds None,
     Ret PNone).
Proof.
  apply (clean_reports_what_it_removed
           (Sample.world_of Sample.project [] Sample.every_command_succeeds)).
  intros name [<-|[<-|[<-|[]]]]; exact I.
Defined.

(** ** More on the archive *)

(** X13.  The zip-package operation touches nothing in the working
    directory but the entry under the archive's name, whether it ends
    well or in [IsADirectoryError]; and it spawns no command and reads no
    input. *)
Theorem zip_touches_nothing_else (w : world) (name : string) :
  name <> zip_filename_at (clock w) ->
  assoc name (fs (fst (create_zip_package w))) = assoc name (fs w) /\
  spawned (fst (create_zip_package w)) = spawned w /\
  stdin (fst (create_zip_package w)) = stdin w.
Proof.
  intros Hne. destruct (create_zip_package_cases w) as [[es [_ ->]]|[ms ->]].
  - repeat split.
  - simpl. split; [|split; reflexivity]. now apply assoc_put_other.
Qed.

Lemma zip_touches_nothing_else_witness :
  assoc "setup.py"
    (fs (fst (create_zip_package
                (Sample.world_of Sample.project [] Sample.every_command_succeeds)))) =
    Some (File (Raw "from setuptools import setup")).
Proof.
  apply (zip_touches_nothing_else
           (Sample.world_of Sample.project [] Sample.every_command_succeeds) "setup.py").
  intros H. vm_compute in H. discriminate H.
Defined.

(** A loop all of whose turns succeed, and one of which adds [m], adds [m]. *)
Lemma for_adds {A : Type} (w0 : world) (name : string) (body : A -> M unit)
    (xs : list A) (x : A) (m : string * data) :
  (forall y, In y xs -> forall ms0 w, archiving w0 name ms0 w ->
             exists w', body y w = (w', Ret tt) /\ archiving w0 name ms0 w') ->
  (forall ms1, exists extra,
      body x (set_open_zip (Some (mkZip name ms1)) w0) =
        (set_open_zip (Some (mkZip name (ms1 ++ extra)%list)) w0, Ret tt) /\
      In m extra) ->
  In x xs ->
  forall ms1, exists extra,
    for_ xs body (set_open_zip (Some (mkZip name ms1)) w0) =
      (set_open_zip (Some (mkZip name (ms1 ++ extra)%list)) w0, Ret tt) /\
    In m extra.
Proof.
  intros Hall Hx Hin ms1. apply in_split in Hin as [pre [post ->]].
  destruct (for_ok (archiving w0 name ms1) body pre) with
    (w := set_open_zip (Some (mkZip name ms1)) w0) as [wa [Ea [e1 ->]]].
  { intros y Hy w Hw. apply Hall; [|exact Hw]. apply in_or_app. now left. }
  { exists []. now rewrite app_nil_r. }
  destruct (Hx (ms1 ++ e1)%list) as [e2 [Ex Hm]].
  destruct (for_ok (archiving w0 name ((ms1 ++ e1) ++ e2)%list) body post) with
    (w := set_open_zip (Some (mkZip name ((ms1 ++ e1) ++ e2)%list)) w0) as [wb [Eb [e3 ->]]].
  { intros y Hy w Hw. apply Hall; [|exact Hw]. apply in_or_app. right. now right. }
  { exists []. now rewrite app_nil_r. }
  exists (e1 ++ e2 ++ e3)%list. split.
  - rewrite for_app. unfold bind at 1. rewrite Ea. cbn [for_]. unfold bind at 1.
    rewrite Ex, Eb. now rewrite !app_assoc.
  - apply in_or_app. right. apply in_or_app. now left.
Qed.

Lemma visible_keeps (seen : list string) (es : dir) (k : string) (x : node) :
  assoc k es = Some x -> ~ In k seen -> In (k, x) (Fs.visible seen es).
Proof.
  revert seen. induction es as [|[k0 x0] es IH]; intros seen Ha Hk; simpl in *; [discriminate|].
  destruct (String.eqb_spec k0 k) as [->|Hne].
  - injection Ha as ->.
    destruct (existsb (String.eqb k) seen) eqn:E; [|now left].
    exfalso. apply Hk. apply existsb_exists in E as [y [Hy E]].
    apply String.eqb_eq in E. now subst.
  - destruct (existsb (String.eqb k0) seen); [now apply IH|].
    right. apply IH; [exact Ha|]. intros [->|H]; [congruence | now apply Hk].
Qed.

Lemma filenames_keep (es : dir) (f : string) (d : data) :
  assoc f es = Some (File d) -> In f (Fs.filenames es).
Proof.
  intros Ha. unfold Fs.filenames. apply in_map_iff. exists (f, File d). split; [reflexivity|].
  apply filter_In. split; [|reflexivity]. apply visible_keeps; [exact Ha | intros []].
Qed.

Lemma strip_common_refl (a b : list string) : Path.strip_common a (a ++ b)%list = ([], b).
Proof.
  induction a as [|x a IH]; simpl; [now destruct b|]. now rewrite String.eqb_refl.
Qed.

Lemma add_item_directory (item : string) (es : dir) (w : world) :
  Fs.stat (fs w) (Path.of_string item) = Some (Dir es) ->
  add_item item w = for_ (Fs.walk (Path.of_string item) (Dir es)) (add_walked item) w.
Proof.
  intros Hst. unfold add_item, bind at 1, os_path_exists. rewrite Hst.
  unfold bind at 1, os_path_isdir. rewrite Hst.
  unfold bind at 1, os_walk. rewrite Hst. reflexivity.
Qed.

(** Every [(root, dirs, files)] of a walk is written without an exception. *)
Lemma add_walked_ok (w0 : world) (name item : string) (es : dir)
    (t : path * list string * list string) :
  Fs.stat (fs w0) (Path.of_string item) = Some (Dir es) ->
  In t (Fs.walk (Path.of_string item) (Dir es)) ->
  forall ms0 w, archiving w0 name ms0 w ->
  exists w', add_walked item t w = (w', Ret tt) /\ archiving w0 name ms0 w'.
Proof.
  intros Hst Hin ms0 w Hw. destruct t as [[root ds] files]. unfold add_walked.
  apply for_ok; [|exact Hw].
  intros f Hf w2 Hw2. apply zipf_write_ok; [exact Hw2|].
  pose proof (stat_resolve _ _ _ Hst) as Hres.
  destruct (walk_files_found (Dir (fs w0)) (Dir es) _ Hres root ds files f Hin Hf) as [x Hx].
  exact (stat_joined _ _ _ _ Hx).
Qed.

(** A file directly inside a listed directory is written under its bare name. *)
Lemma add_directory_item (w0 : world) (name c f : string) (es : dir) (d : data) :
  Path.of_string (c ++ "/") = mkPath [c] true ->
  assoc c (fs w0) = Some (Dir es) ->
  assoc f es = Some (File d) ->
  forall ms1, exists extra,
    add_item (c ++ "/") (set_open_zip (Some (mkZip name ms1)) w0) =
      (set_open_zip (Some (mkZip name (ms1 ++ extra)%list)) w0, Ret tt) /\
    In (f, d) extra.
Proof.
  intros Hp Hc Hf ms1.
  assert (Hst : Fs.stat (fs w0) (Path.of_string (c ++ "/")) = Some (Dir es)).
  { rewrite Hp, stat_top. now rewrite Hc. }
  rewrite (add_item_directory (c ++ "/") es) by exact Hst.
  apply (for_adds w0 name _ _ (Path.of_string (c ++ "/"), Fs.dirnames es, Fs.filenames es)).
  - intros t Hin ms0 w Hw. now apply (add_walked_ok w0 name (c ++ "/") es t).
  - intros ms2. unfold add_walked.
    apply (for_adds w0 name _ _ f).
    + intros y Hy ms0 w Hw. apply zipf_write_ok; [exact Hw|].
      destruct (filenames_in es y Hy) as [x Hx].
      rewrite Hp. unfold os_path_join. cbn [parts]. unfold Fs.stat. cbn [parts trailing_slash].
      simpl. rewrite Hc, (listdir_assoc _ _ _ Hx). now destruct x.
    + intros ms3. exists [(f, d)]. split; [|now left].
      unfold zipf_write. cbn [open_zip set_open_zip fs].
      rewrite Hp. unfold os_path_join, os_path_dirname, os_path_relpath.
      cbn [parts trailing_slash]. rewrite (strip_common_refl [c] [f]).
      cbn [repeat List.length app Path.join_parts].
      unfold Fs.stat. cbn [parts trailing_slash]. simpl. rewrite Hc, Hf. reflexivity.
    + now apply (filenames_keep es f d).
  - rewrite walk_Dir. now left.
Qed.

Lemma listed_directory_members (w : world) (c f : string) (es : dir) (d : data) :
  In c ["delta_optimizer"; "examples"] ->
  assoc c (fs w) = Some (Dir es) ->
  assoc f es = Some (File d) ->
  exists extra,
    for_ files_to_include add_item
         (set_open_zip (Some (mkZip (zip_filename_at (clock w)) [])) (opened w)) =
      (set_open_zip (Some (mkZip (zip_filename_at (clock w)) extra)) (opened w), Ret tt) /\
    In (f, d) extra.
Proof.
  intros Hc Hdir Hf.
  assert (Hdir' : assoc c (fs (opened w)) = Some (Dir es)).
  { cbn [opened fs set_fs write]. rewrite assoc_put_other; [exact Hdir|].
    apply zip_filename_not_listed. simpl in *. tauto. }
  apply (for_adds (opened w) (zip_filename_at (clock w)) add_item files_to_include (c ++ "/")
           (f, d)) with (ms1 := []).
  - intros item _ ms0 w1 Hw1. now apply add_item_ok.
  - intros ms1. apply add_directory_item with (es := es); [|exact Hdir' | exact Hf].
    simpl in Hc. destruct Hc as [<-|[<-|[]]]; reflexivity.
  - simpl in Hc. destruct Hc as [<-|[<-|[]]]; simpl; auto.
Qed.

(** X14.  A regular file [f] directly inside the package directory (or
    the examples directory) goes into the archive under the name [f]
    alone: the directory's own name is no part of the member's name,
    since the listed path ends in a slash and its [dirname] is the
    directory itself. *)
Theorem directory_files_lose_their_directory (w : world) (c f : string) (es : dir)
    (d : data) :
  In c ["delta_optimizer"; "examples"] ->
  assoc c (fs w) = Some (Dir es) ->
  assoc f es = Some (File d) ->
  not_a_directory (zip_filename_at (clock w)) (fs w) ->
  exists ms,
    create_zip_package w = (zipped w ms, Ret (PStr (zip_filename_at (clock w)))) /\
    In (f, d) ms.
Proof.
  intros Hc Hdir Hf Hfree.
  destruct (listed_directory_members w c f es d Hc Hdir Hf) as [ms [Hfor Hin]].
  exists ms. split; [now apply create_zip_package_eq | exact Hin].
Qed.

Lemma directory_files_lose_their_directory_witness :
  exists ms,
    create_zip_package (Sample.world_of Sample.project [] Sample.every_command_succeeds) =
      (zipped (Sample.world_of Sample.project [] Sample.every_command_succeeds) ms,
       Ret (PStr "delta-optimizer-20261104.zip")) /\
    In ("__init__.py", Raw "from .core import DeltaOptimizer") ms.
Proof.
  apply (directory_files_lose_their_directory
           (Sample.world_of Sample.project [] Sample.every_command_succeeds)
           "delta_optimizer" "__init__.py"
           [ ("__init__.py", File (Raw "from .core import DeltaOptimizer"));
             ("core", Dir [("optimizer.py", File (Raw "class DeltaOptimizer: pass"))]) ]).
  - simpl. auto.
  - reflexivity.
  - reflexivity.
  - exact I.
Defined.

(** X15.  Two regular files of one name, one directly in the package
    directory and one directly in the examples directory, are both put
    into the archive under that same member name. *)
Theorem archive_names_can_clash (w : world) (f : string) (es1 es2 : dir) (d1 d2 : data) :
  assoc "delta_optimizer" (fs w) = Some (Dir es1) ->
  assoc "examples" (fs w) = Some (Dir es2) ->
  assoc f es1 = Some (File d1) ->
  assoc f es2 = Some (File d2) ->
  not_a_directory (zip_filename_at (clock w)) (fs w) ->
  exists ms,
    create_zip_package w = (zipped w ms, Ret (PStr (zip_filename_at (clock w)))) /\
    In (f, d1) ms /\ In (f, d2) ms.
Proof.
  intros H1 H2 Hf1 Hf2 Hfree.
  destruct (listed_directory_members w "delta_optimizer" f es1 d1) as [ms [Hfor Hin1]];
    [simpl; auto | exact H1 | exact Hf1 |].
  destruct (listed_directory_members w "examples" f es2 d2) as [ms' [Hfor' Hin2]];
    [simpl; auto | exact H2 | exact Hf2 |].
  assert (ms' = ms) as ->.
  { rewrite Hfor in Hfor'. injection Hfor' as E. symmetry. exact E. }
  exists ms. split; [now apply create_zip_package_eq|]. split; assumption.
Qed.

Lemma archive_names_can_clash_witness :
  exists ms,
    create_zip_package (Sample.world_of two_run_py [] Sample.every_command_succeeds) =
      (zipped (Sample.world_of two_run_py [] Sample.every_command_succeeds) ms,
       Ret (PStr "delta-optimizer-20261104.zip")) /\
    In ("run.py", Raw "import core") ms /\ In ("run.py", Raw "import delta_optimizer") ms.
Proof.
  apply (archive_names_can_clash (Sample.world_of two_run_py [] Sample.every_command_succeeds)
           "run.py" [("run.py", File (Raw "import core"))]
           [("run.py", File (Raw "import delta_optimizer"))]);
    first [reflexivity | exact I].
Defined.

(** ** The exceptions of the program *)

Lemma for_raises {A : Type} (xs : list A) (body : A -> M unit) (w w' : world) (e : exn) :
  for_ xs body w = (w', Raise e) ->
  exists x w1, In x xs /\ body x w1 = (w', Raise e).
Proof.
  revert w. induction xs as [|x xs IH]; intros w H; simpl in H; [discriminate|].
  unfold bind in H. destruct (body x w) as [w1 [[]|e1]] eqn:E.
  - destruct (IH _ H) as [y [w2 [Hy Hb]]]. exists y, w2. split; [now right | exact Hb].
  - injection H as <- <-. exists x, w. split; [now left | exact E].
Qed.

Lemma clean_raises (w w' : world) (e : exn) :
  clean_build_files w = (w', Raise e) ->
  exists name, In name build_dirs /\ e = NotADirectoryError name.
Proof.
  unfold clean_build_files, bind at 1. intros H.
  destruct (for_ build_dirs remove_if_exists w) as [w1 [[]|e1]] eqn:E; [discriminate|].
  injection H as <- <-.
  destruct (for_raises _ _ _ _ _ E) as [name [w2 [Hin Hb]]]. exists name. split; [exact Hin|].
  assert (Hp : Path.of_string name = mkPath [name] false).
  { simpl in Hin. destruct Hin as [<-|[<-|[<-|[]]]]; reflexivity. }
  rewrite (remove_if_exists_cases name w2 Hp) in Hb.
  destruct (assoc name (fs w2)) as [[d|es]|]; congruence.
Qed.

Lemma options_raise (key description : string) (function : M pyval) (w w' : world) (e : exn) :
  assoc key options = Some (description, function) ->
  function w = (w', Raise e) -> foreseen e.
Proof.
  intros Hfound Hrun. pose proof (registered_key key _ Hfound) as Hkey. simpl in Hkey.
  repeat (destruct Hkey as [<-|Hkey];
          [simpl in Hfound; injection Hfound as _ <-|]); try destruct Hkey.
  - right; right; left. exact (clean_raises _ _ _ Hrun).
  - destruct (build_package_reports w) as [w1 [b [out [E _]]]]. congruence.
  - destruct (install_locally_reports w) as [w1 [b [out [E _]]]]. congruence.
  - destruct (run_tests_reports w) as [w1 [b [out [E _]]]]. congruence.
  - destruct (create_zip_package_cases w) as [[es [_ E]]|[ms E]]; rewrite E in Hrun.
    + injection Hrun as _ <-. right; right; right. eexists. reflexivity.
    + discriminate.
  - destruct (stdin w) as [|response rest] eqn:Hin.
    + rewrite (upload_eof w Hin) in Hrun. injection Hrun as _ <-.
      right; left. reflexivity.
    + rewrite (upload_eq w response rest Hin) in Hrun.
      destruct (negb (Text.lower response =? "y")); [discriminate|].
      unfold bind in Hrun.
      destruct (run_command_prints "twine upload dist/*" "Uploading to PyPI" (asked w rest))
        as [w1 [b [out [E _]]]].
      rewrite E in Hrun. discriminate.
  - rewrite full_pipeline_clean in Hrun. right; right; left. exact (clean_raises _ _ _ Hrun).
  - injection Hrun as _ <-. left. reflexivity.
Qed.

Lemma while_true_step (n : nat) (opts : menu) (w : world) :
  while_true (S n) opts w =
    match loop_body opts w with
    | (w1, Ret opts') => while_true n opts' w1
    | (w1, Raise e) => (w1, Raise e)
    end.
Proof. reflexivity. Qed.

(** Whatever the mapping holds: the loop raises what [input] raises at the
    end of the input, or what one of the mapping's operations raises. *)
Lemma while_true_raises_from (opts : menu) (P : exn -> Prop) :
  P EOFError ->
  (forall key description function w w' e,
     assoc key opts = Some (description, function) ->
     function w = (w', Raise e) -> P e) ->
  forall turns w w' e, while_true turns opts w = (w', Raise e) -> P e.
Proof.
  intros Heof Hop. induction turns as [|n IH]; intros w w' e H; [discriminate|].
  rewrite while_true_step in H.
  destruct (stdin w) as [|line rest] eqn:Hin.
  - rewrite (loop_body_eof opts w Hin) in H. injection H as _ <-. exact Heof.
  - destruct (assoc (Text.strip line) opts) as [[description function]|] eqn:Hfound.
    + rewrite (loop_body_chosen opts w line rest description function Hin Hfound) in H.
      destruct (function (chosen w rest opts description)) as [w1 [v|e1]] eqn:E.
      * exact (IH w1 w' e H).
      * injection H as _ <-. exact (Hop _ _ _ _ _ _ Hfound E).
    + rewrite (loop_body_invalid opts w line rest Hin Hfound) in H.
      exact (IH _ w' e H).
Qed.

Lemma while_true_raises (turns : nat) (w w' : world) (e : exn) :
  while_true turns options w = (w', Raise e) -> foreseen e.
Proof.
  apply (while_true_raises_from options foreseen).
  - right; left. reflexivity.
  - exact options_raise.
Qed.

(** X16.  Whatever is typed and whatever the commands do, [main] can end
    with four kinds of exception only: [SystemExit] with no code (the
    exit entry), [EOFError] (the input ran out, at the menu or at the
    upload question), [NotADirectoryError] for one of clean's three names,
    and [IsADirectoryError] from opening the archive.  A failing command
    is never one of them. *)
Theorem main_raises_only_these (turns : nat) (w w' : world) (e : exn) :
  main turns w = (w', Raise e) -> foreseen e.
Proof. unfold main, bind, print. apply while_true_raises. Qed.

Lemma main_raises_only_these_witness :
  foreseen (NotADirectoryError "build").
Proof.
  apply (main_raises_only_these 2
           (Sample.world_of Sample.build_is_a_script ["7"] Sample.every_command_succeeds)
           (mkWorld Sample.build_is_a_script []
                    ([Text.line (Text.times "=" 50);
                      Text.line "DeltaOptimizer Build and Installation System";
                      Text.line (Text.times "=" 50)]
                     ++ menu_text options
                     ++ banner "Full pipeline (clean+build+install+test)")%list
                    Sample.today [] Sample.every_command_succeeds None)).
  reflexivity.
Defined.

(** X17.  The guard of the script looks for [setup.py] beside the script
    file: when it is not there, the program prints the error and ends in
    [SystemExit] with code 1 before any menu is shown or input read; and
    that is the only way the program ends with an exit code: if it ends
    in [SystemExit] with a code, the code is 1 and [setup.py] was missing
    beside the script. *)
Theorem exit_status_one_is_the_guard (current_dir : dir) (turns : nat) (w : world) :
  (assoc "setup.py" current_dir = None ->
   script current_dir turns w =
     (printing [Text.line setup_py_missing] w, Raise (SystemExit (Some 1%Z)))) /\
  (forall w' code,
     script current_dir turns w = (w', Raise (SystemExit (Some code))) ->
     code = 1%Z /\ assoc "setup.py" current_dir = None).
Proof.
  unfold script. split.
  - intros H. rewrite H. reflexivity.
  - intros w' code H. destruct (assoc "setup.py" current_dir).
    + simpl in H. unfold main, bind, print in H. apply while_true_raises in H.
      destruct H as [H|[H|[[name [_ H]]|[name H]]]]; discriminate H.
    + simpl in H. unfold bind, print, raise in H. injection H as _ <-. auto.
Qed.

Lemma exit_status_one_is_the_guard_witness :
  script [("README.md", File (Raw "DeltaOptimizer"))] 5
         (Sample.world_of Sample.project ["8"] Sample.every_command_succeeds) =
    (printing [Text.line setup_py_missing]
              (Sample.world_of Sample.project ["8"] Sample.every_command_succeeds),
     Raise (SystemExit (Some 1%Z))).
Proof.
  apply (proj1 (exit_status_one_is_the_guard [("README.md", File (Raw "DeltaOptimizer"))] 5
                  (Sample.world_of Sample.project ["8"] Sample.every_command_succeeds))).
  reflexivity.
Defined.
